(** * mdm-service: the dynamic schema engine, embedded in Rocq

    A shallow embedding of the two services of the repository that implement
    the schema registry and the generic record engine:

    - [SchemaService] ([schema.service.ts]): createSchema, validateSchema,
      buildSchemaDefinition, validateMasterReferences, createData, findAll,
      update, getSchema, deleteSchema;
    - [MasterService] ([master.service.ts], the service the record routes of
      [master.controller.ts] call): updateSchemaCache, getModel,
      buildSchemaDefinition, createData, findAll, update,
      validateMasterReferences.

    JavaScript values are an inductive type, the MongoDB connection is an
    explicit state (collections, registered models, the two in-memory
    caches), exceptions are an error type, and every service method is a
    function of the state that returns a result and the next state. *)

From Stdlib Require Import ZArith QArith Qabs Qround String Ascii List Bool Lia.
From Stdlib Require Import DecimalString Sorted Permutation.
From stdpp Require Import base option list gmap strings.

Set Warnings "-register-all".

(** ** JavaScript values *)

(** A JavaScript number.  Finite doubles are kept as exact rationals: rounding
    to binary64 and the sign of zero are not represented. *)
Inductive number : Type :=
| NaN
| Infinity (negative : bool)
| Finite (q : Q).

(** The values a request body or a stored document can hold.  [VDate t] is a
    [Date] object with time value [t] ([NaN] for an invalid date). *)
Inductive Value : Type :=
| VUndefined
| VNull
| VBool (b : bool)
| VNum (n : number)
| VStr (s : string)
| VDate (t : number)
| VArr (items : list Value)
| VObj (props : list (string * Value)).

(** A plain JavaScript object used as a record: request payloads, converted
    data, stored documents and query objects. *)
Abbreviation JSObject := (gmap string Value).

(** [obj[key]]: a missing property reads as [undefined]. *)
Definition prop (obj : JSObject) (key : string) : Value :=
  default VUndefined (obj !! key).

(** [key in obj]. *)
Definition hasProp (key : string) (obj : JSObject) : bool :=
  bool_decide (is_Some (obj !! key)).

Definition isNaN (n : number) : bool :=
  match n with NaN => true | _ => false end.

Definition isFinite (n : number) : bool :=
  match n with Finite _ => true | _ => false end.

Definition isUndefined (v : Value) : bool :=
  match v with VUndefined => true | _ => false end.

(** [Array.isArray(v)]. *)
Definition isArray (v : Value) : bool :=
  match v with VArr _ => true | _ => false end.

(** [typeof v === 'object']: null, arrays, dates and plain objects. *)
Definition typeofObject (v : Value) : bool :=
  match v with VNull | VDate _ | VArr _ | VObj _ => true | _ => false end.

(** [Boolean(v)], and the truthiness test of [if (v)] and [!v]. *)
Definition ToBoolean (v : Value) : bool :=
  match v with
  | VUndefined | VNull => false
  | VBool b => b
  | VNum NaN => false
  | VNum (Finite q) => negb (Qeq_bool q 0)
  | VNum (Infinity _) => true
  | VStr s => negb (String.eqb s "")
  | VDate _ | VArr _ | VObj _ => true
  end.

(** [String.prototype.toLowerCase] on the ASCII letters; other bytes are left
    as they are. *)
Definition lowerAscii (c : ascii) : ascii :=
  let n := nat_of_ascii c in
  if (65 <=? n)%nat && (n <=? 90)%nat then ascii_of_nat (n + 32) else c.

Fixpoint toLowerCase (s : string) : string :=
  match s with
  | EmptyString => EmptyString
  | String c rest => String (lowerAscii c) (toLowerCase rest)
  end.

(** [TimeClip] (ECMA-262 21.4.1.31): a time value is an integral number of
    milliseconds of magnitude at most 8.64e15, or NaN. *)
Definition truncate (q : Q) : Z := Z.quot (Qnum q) (Zpos (Qden q)).

Definition TimeClip (t : number) : number :=
  match t with
  | Finite q =>
      if Qle_bool (Qabs q) (inject_Z 8640000000000000)
      then Finite (inject_Z (truncate q))
      else NaN
  | _ => NaN
  end.

(** The services of the platform whose results depend on the text of a string
    or on chance: the engine's string conversions, MongoDB's regular
    expression engine and the nanoid generator.  The general theorems hold for
    every host. *)
Class Host : Type := {
  (** StringToNumber (ECMA-262 7.1.4.1.1) *)
  StringToNumber : string -> number;
  (** ToString of a value (7.1.17), used when an array or an object is
      converted to a primitive *)
  ToString : Value -> string;
  (** [Date.parse] (21.4.3.2) *)
  DateParse : string -> number;
  (** does [subject] match [{ $regex: pattern, $options: options }] *)
  RegexMatch : forall (pattern options subject : string), bool;
  (** [nanoidGenerator.generate()]: the identifier of the n-th call *)
  generate : nat -> string
}.

Section Conversions.
Context `{Host}.

(** [Number(v)]. *)
Definition ToNumber (v : Value) : number :=
  match v with
  | VUndefined => NaN
  | VNull => Finite 0
  | VBool b => Finite (if b then 1 else 0)
  | VNum n => n
  | VStr s => StringToNumber s
  | VDate t => t
  | VArr _ | VObj _ => StringToNumber (ToString v)
  end.

(** The time value of [new Date(v)] (21.4.2.1): a Date argument gives its
    own time value, a string is parsed, anything else is converted to a
    number; the result is clipped. *)
Definition newDate (v : Value) : number :=
  TimeClip
    match v with
    | VDate t => t
    | VStr s => DateParse s
    | VArr _ | VObj _ => DateParse (ToString v)
    | _ => ToNumber v
    end.
End Conversions.

(** ** The schema metadata (mdm.enum.ts, create-schema.dto.ts) *)

Inductive FieldType : Type :=
| STRING | NUMBER | BOOLEAN | DATE | OBJECT | ARRAY | MASTER.

Inductive RelationshipType : Type :=
| ONE_TO_ONE | ONE_TO_MANY | MANY_TO_ONE | MANY_TO_MANY.

#[global] Instance FieldType_eq_dec : EqDecision FieldType.
Proof. solve_decision. Defined.

(** [class FieldDefinition].  An optional boolean is read only through its
    truthiness, so an absent one is [false]; an absent [defaultValue] is
    [VUndefined]; [validationRules] is never read by the services. *)
Module FieldDefinition.
Record t : Type := make {
  name : string;
  type : FieldType;
  required : bool;
  unique : bool;
  defaultValue : Value;
  masterType : option string;
  relationshipType : option RelationshipType
}.
End FieldDefinition.

(** [class CreateSchemaDto]. *)
Module CreateSchemaDto.
Record t : Type := make {
  name : string;
  displayName : string;
  fields : list FieldDefinition.t;
  groupId : option string
}.
End CreateSchemaDto.

(** ** Exceptions and results *)

(** The message of an exception, one constructor per template literal of the
    source, carrying the interpolated values. *)
Inductive Message : Type :=
| SchemaAlreadyExists (schemaName : string)
    (* `Schema ${schemaName} already exists` *)
| SchemaDoesNotExist (schemaName : string)
    (* `Schema ${schemaName} does not exist` *)
| SchemaNotInCache (schemaName : string)
    (* `Schema ${schemaName} not found in cache` *)
| FieldNamesMustBeUnique
    (* 'Field names must be unique' *)
| MasterTypeNotSpecified (fieldName : string)
    (* `Field ${field.name} is of type MASTER but masterType is not specified` *)
| RelationshipTypeNotSpecified (fieldName : string)
    (* `Field ${field.name} is of type MASTER but relationshipType is not specified` *)
| ReferencedMasterDoesNotExist (masterType : string)
    (* `Referenced master ${field.masterType} does not exist` *)
| InvalidGroupId (groupId : string)
    (* `Invalid group ID: ${groupId}. This group ID does not exist ...` *)
| InvalidRelationshipType (fieldName : string)
    (* `Invalid relationship type ${field.relationshipType} for field ${field.name}` *)
| FieldIsRequired (fieldName : string)
    (* `Field ${field.name} is required` *)
| MustBeValidNumber (fieldName : string)
    (* `Field ${field.name} must be a valid number` *)
| MustBeValidDate (fieldName : string)
    (* `Field ${field.name} must be a valid date` *)
| MustBeArray (fieldName : string)
    (* `Field ${field.name} must be an array` *)
| MustBeObject (fieldName : string)
    (* `Field ${field.name} must be an object` *)
| InvalidReference (id : Value) (masterType : string)
    (* `Invalid reference: ${id} does not exist in ${masterType}` *)
| DataNotFound (id : string)
    (* `Data with ID ${id} not found` *)
| RecordNotFound (schemaName : string)
    (* `Record not found in ${schemaName}` *)
| ReferencedByOtherSchemas (schemaName : string) (referencing : list string)
    (* `Cannot delete schema ${schemaName} because it is referenced by other
       schemas: ${names.join(', ')}. Use force=true to delete anyway.` *)
| FailedToDeleteSchema (schemaName : string).
    (* `Failed to delete schema ${schemaName}` *)

Inductive Exception : Type :=
| BadRequestException (m : Message)
| NotFoundException (m : Message)
| InternalServerErrorException (m : Message)
| TypeError            (* a property read on [undefined] *)
| MongoServerError.    (* the store refuses a command *)

Inductive Result (A : Type) : Type :=
| Ok (a : A)
| Throw (e : Exception).
Arguments Ok {A} a.
Arguments Throw {A} e.

(** The value a schema operation resolves to. *)
Inductive Reply : Type :=
| CreatedSuccessfully (schemaName : string)
    (* { message: `Schema ${schemaName} created successfully` } *)
| DeletedSuccessfully (schemaName : string).
    (* { message: `Schema ${schemaName} deleted successfully` } *)

Definition bindResult {A B : Type} (r : Result A) (k : A -> Result B) : Result B :=
  match r with
  | Ok a => k a
  | Throw e => Throw e
  end.

Notation "'let*' x ':=' r 'in' k" := (bindResult r (fun x => k))
  (at level 10, x name, r at level 100, k at level 200).

(** [for (const x of xs) { body }] where the body may throw. *)
Fixpoint forEach {A : Type} (body : A -> Result unit) (xs : list A) : Result unit :=
  match xs with
  | [] => Ok tt
  | x :: rest => let* _ := body x in forEach body rest
  end.

(** ** The document store (MongoDB behind Mongoose)

    The store is an external collaborator; this is the part of its behaviour
    the services rely on.  A collection is the list of its documents in
    insertion order.  Of the query operators only [$or] and [$regex], the two
    the services write themselves, are interpreted; any other condition is an
    equality test, and an equality test on a stored array succeeds when an
    element equals the operand. *)

Fixpoint Value_eqb (a b : Value) : bool :=
  match a, b with
  | VUndefined, VUndefined => true
  | VNull, VNull => true
  | VBool x, VBool y => Bool.eqb x y
  | VNum x, VNum y | VDate x, VDate y =>
      match x, y with
      | NaN, NaN => true
      | Infinity s, Infinity s' => Bool.eqb s s'
      | Finite p, Finite q => Qeq_bool p q
      | _, _ => false
      end
  | VStr x, VStr y => String.eqb x y
  | VArr xs, VArr ys =>
      (fix items (xs ys : list Value) : bool :=
         match xs, ys with
         | [], [] => true
         | x :: xs', y :: ys' => Value_eqb x y && items xs' ys'
         | _, _ => false
         end) xs ys
  | VObj xs, VObj ys =>
      (fix props (xs ys : list (string * Value)) : bool :=
         match xs, ys with
         | [], [] => true
         | (k, x) :: xs', (k', y) :: ys' =>
             String.eqb k k' && Value_eqb x y && props xs' ys'
         | _, _ => false
         end) xs ys
  | _, _ => false
  end.

Definition matchEq (stored operand : Value) : bool :=
  Value_eqb stored operand
  || match stored with
     | VArr items => existsb (fun item => Value_eqb item operand) items
     | _ => false
     end.

Fixpoint lookupProp (props : list (string * Value)) (key : string) : Value :=
  match props with
  | [] => VUndefined
  | (k, v) :: rest => if String.eqb k key then v else lookupProp rest key
  end.

(** BSON's comparison order on the values of a sort key: a missing key sorts
    as null, then numbers, strings, objects, arrays, booleans, dates.  Two
    objects, or two arrays, compare as equal here. *)
Definition bsonRank (v : Value) : nat :=
  match v with
  | VUndefined | VNull => 1
  | VNum _ => 2
  | VStr _ => 3
  | VObj _ => 4
  | VArr _ => 5
  | VBool _ => 8
  | VDate _ => 9
  end.

Definition numberCompare (a b : number) : comparison :=
  match a, b with
  | NaN, NaN => Eq
  | NaN, _ => Lt
  | _, NaN => Gt
  | Infinity s, Infinity s' => Bool.compare s' s
  | Infinity s, Finite _ => if s then Lt else Gt
  | Finite _, Infinity s => if s then Gt else Lt
  | Finite p, Finite q => Qcompare p q
  end.

Definition bsonCompare (a b : Value) : comparison :=
  match Nat.compare (bsonRank a) (bsonRank b) with
  | Eq =>
      match a, b with
      | VNum x, VNum y => numberCompare x y
      | VStr x, VStr y => String.compare x y
      | VBool x, VBool y => Bool.compare x y
      | VDate x, VDate y => numberCompare x y
      | _, _ => Eq
      end
  | c => c
  end.

(** [a] may stand before [b] in a result sorted by [{ [key]: direction }]
    (ascending when the direction is positive, descending otherwise). *)
Definition precedes (key : string) (direction : Z) (a b : JSObject) : bool :=
  match bsonCompare (prop a key) (prop b key) with
  | Eq => true
  | Lt => (0 <? direction)%Z
  | Gt => negb (0 <? direction)%Z
  end.

Fixpoint insertSorted {A : Type} (le : A -> A -> bool) (x : A) (l : list A) : list A :=
  match l with
  | [] => [x]
  | y :: rest => if le x y then x :: l else y :: insertSorted le x rest
  end.

(** [cursor.sort({ [key]: direction })], as a stable insertion sort. *)
Definition sortDocs (key : string) (direction : Z) (docs : list JSObject) : list JSObject :=
  fold_right (insertSorted (precedes key direction)) [] docs.

(** [cursor.skip(n)]: the store refuses a negative skip. *)
Definition skipDocs (n : Z) (docs : list JSObject) : Result (list JSObject) :=
  if (n <? 0)%Z then Throw MongoServerError else Ok (drop (Z.to_nat n) docs).

(** [cursor.limit(n)]: 0 means no limit, and a negative limit is read as its
    absolute value. *)
Definition limitDocs (n : Z) (docs : list JSObject) : list JSObject :=
  if (n =? 0)%Z then docs else take (Z.to_nat (Z.abs n)) docs.

Section Matching.
Context `{Host}.

Definition matchRegex (pattern options : string) (stored : Value) : bool :=
  match stored with
  | VStr s => RegexMatch pattern options s
  | VArr items =>
      existsb (fun item => match item with
                           | VStr s => RegexMatch pattern options s
                           | _ => false
                           end) items
  | _ => false
  end.

(** One condition [{ field: condition }] against the stored value. *)
Definition matchCondition (condition stored : Value) : bool :=
  match condition with
  | VObj props =>
      match lookupProp props "$regex" with
      | VStr pattern =>
          matchRegex pattern
            (match lookupProp props "$options" with VStr o => o | _ => "" end)
            stored
      | _ => matchEq stored condition
      end
  | _ => matchEq stored condition
  end.

Definition matchClause (clause : list (string * Value)) (doc : JSObject) : bool :=
  forallb (fun '(field, condition) => matchCondition condition (prop doc field)) clause.

(** Does the document satisfy the query object: every entry must hold, and
    the entry [$or] holds when one of its clauses does. *)
Definition matchEntry (doc : JSObject) (entry : string * Value) : bool :=
  let '(key, condition) := entry in
  if String.eqb key "$or" then
    match condition with
    | VArr clauses =>
        existsb (fun clause => match clause with
                               | VObj props => matchClause props doc
                               | _ => false
                               end) clauses
    | _ => false
    end
  else matchCondition condition (prop doc key).

Definition matches (query : JSObject) (doc : JSObject) : bool :=
  forallb (matchEntry doc) (map_to_list query).
End Matching.

(** ** Mongoose schemas and models *)

(** The constructors [String], [Number], ... a path is declared with. *)
Inductive SchemaType : Type :=
| SString | SNumber | SBoolean | SDate | SObject | SArray.

(** The [default] of a path. *)
Inductive DefaultSpec : Type :=
| NoDefault
| DefaultNanoid                (* () => nanoidGenerator.generate() *)
| DefaultNow                   (* Date.now *)
| DefaultConst (v : Value).

Module SchemaTypeOptions.
Record t : Type := make {
  type : SchemaType;
  required : bool;
  unique : bool;
  default : DefaultSpec;
  ref : option string
}.
End SchemaTypeOptions.

(** An entry of a schema definition object: [{ type, ... }], a single slot, or
    [[{ type, ... }]], a collection of such slots. *)
Inductive PathDefinition : Type :=
| Path (options : SchemaTypeOptions.t)
| ArrayOf (options : SchemaTypeOptions.t).

(** [schema.paths[path].instance]. *)
Definition instance (p : PathDefinition) : string :=
  match p with
  | ArrayOf _ => "Array"
  | Path o =>
      match SchemaTypeOptions.type o with
      | SString => "String"
      | SNumber => "Number"
      | SBoolean => "Boolean"
      | SDate => "Date"
      | SObject => "Mixed"
      | SArray => "Array"
      end
  end.

(** A compiled model: the accessor of one schema.  [connection.model(name,
    schema, collection)] is always called with the lower-cased schema name
    for both the name and the collection. *)
Record Model : Type := {
  modelName : string;
  collectionName : string;
  schemaDefinition : gmap string PathDefinition
}.

(** A value of [schemaCache]: [{ schema, model }]. *)
Record CacheEntry : Type := {
  schema : CreateSchemaDto.t;
  model : Model
}.

(** A document of the [groups] collection. *)
Module Group.
Record t : Type := make {
  groupId : string;
  groupName : string
}.
End Group.

(** ** The state of the process

    [schemas] is the collection of the same name, each element the [schema]
    property of one document; [collections] holds the record collections by
    name; [models] is [connection.models]; the two caches are the private
    [schemaCache] maps of the two services; [generated] counts the
    identifiers drawn from nanoid and [now] is the clock. *)
Record State : Type := {
  schemas : list CreateSchemaDto.t;
  groups : list Group.t;
  collections : gmap string (list JSObject);
  models : gmap string Model;
  schemaServiceCache : gmap string CacheEntry;
  masterServiceCache : gmap string CacheEntry;
  generated : nat;
  now : number
}.

Definition setSchemas (x : list CreateSchemaDto.t) (st : State) : State :=
  {| schemas := x; groups := groups st; collections := collections st;
     models := models st; schemaServiceCache := schemaServiceCache st;
     masterServiceCache := masterServiceCache st; generated := generated st;
     now := now st |}.

Definition setCollections (x : gmap string (list JSObject)) (st : State) : State :=
  {| schemas := schemas st; groups := groups st; collections := x;
     models := models st; schemaServiceCache := schemaServiceCache st;
     masterServiceCache := masterServiceCache st; generated := generated st;
     now := now st |}.

Definition setModels (x : gmap string Model) (st : State) : State :=
  {| schemas := schemas st; groups := groups st; collections := collections st;
     models := x; schemaServiceCache := schemaServiceCache st;
     masterServiceCache := masterServiceCache st; generated := generated st;
     now := now st |}.

Definition setSchemaServiceCache (x : gmap string CacheEntry) (st : State) : State :=
  {| schemas := schemas st; groups := groups st; collections := collections st;
     models := models st; schemaServiceCache := x;
     masterServiceCache := masterServiceCache st; generated := generated st;
     now := now st |}.

Definition setMasterServiceCache (x : gmap string CacheEntry) (st : State) : State :=
  {| schemas := schemas st; groups := groups st; collections := collections st;
     models := models st; schemaServiceCache := schemaServiceCache st;
     masterServiceCache := x; generated := generated st; now := now st |}.

Definition setGenerated (x : nat) (st : State) : State :=
  {| schemas := schemas st; groups := groups st; collections := collections st;
     models := models st; schemaServiceCache := schemaServiceCache st;
     masterServiceCache := masterServiceCache st; generated := x;
     now := now st |}.

(** ** Model operations *)

(** The documents of the model's collection. *)
Definition documents (st : State) (m : Model) : list JSObject :=
  default [] (collections st !! collectionName m).

(** [connection.model(name, schema, name)]: compiles the model and registers
    it under its name, replacing a model already registered there. *)
Definition compileModel (name : string) (definition : gmap string PathDefinition)
    (st : State) : Model * State :=
  let m := {| modelName := name; collectionName := name;
              schemaDefinition := definition |} in
  (m, setModels (<[name := m]> (models st)) st).

(** [connection.deleteModel(name)]. *)
Definition deleteModel (name : string) (st : State) : State :=
  setModels (delete name (models st)) st.

(** The first element that satisfies [p] replaced by its image. *)
Fixpoint replaceFirst {A : Type} (p : A -> bool) (f : A -> A) (l : list A) : list A :=
  match l with
  | [] => []
  | x :: rest => if p x then f x :: rest else x :: replaceFirst p f rest
  end.

(** The list without the first element that satisfies [p]. *)
Fixpoint removeFirst {A : Type} (p : A -> bool) (l : list A) : list A :=
  match l with
  | [] => []
  | x :: rest => if p x then rest else x :: removeFirst p rest
  end.

Section ModelOperations.
Context `{Host}.

(** [Model.find(query)], before the cursor is sorted and cut. *)
Definition find (st : State) (m : Model) (query : JSObject) : list JSObject :=
  List.filter (matches query) (documents st m).

(** [Model.countDocuments(query)]. *)
Definition countDocuments (st : State) (m : Model) (query : JSObject) : nat :=
  length (find st m query).

(** [Model.findOne(query)]: the document, or [None] for null. *)
Definition findOne (st : State) (m : Model) (query : JSObject) : option JSObject :=
  List.find (matches query) (documents st m).

(** [Model.exists(query)], read through its truthiness. *)
Definition exists_ (st : State) (m : Model) (query : JSObject) : bool :=
  existsb (matches query) (documents st m).

(** The value a path takes when the document does not supply it.  Mongoose
    gives every array path the implicit default []. *)
Definition defaultOf (st : State) (p : PathDefinition) : option Value :=
  match p with
  | ArrayOf _ => Some (VArr [])
  | Path o =>
      match SchemaTypeOptions.default o with
      | DefaultNanoid => Some (VStr (generate (generated st)))
      | DefaultNow => Some (VDate (now st))
      | DefaultConst v => Some v
      | NoDefault =>
          match SchemaTypeOptions.type o with
          | SArray => Some (VArr [])
          | _ => None
          end
      end
  end.

(** [new Model(data).save()]: the document is the data completed with the
    defaults of the paths it leaves out, appended to the collection; one
    identifier is drawn.  The casts and validators Mongoose runs on its own
    inside [save] (and its [_id] and [__v] paths) are not represented: the
    values are stored as the service converted them. *)
Definition save (m : Model) (data : JSObject) (st : State) : JSObject * State :=
  let doc := data ∪ omap (defaultOf st) (schemaDefinition m) in
  (doc,
   setGenerated (S (generated st))
     (setCollections
        (<[collectionName m := documents st m ++ [doc]]> (collections st)) st)).

(** [Model.findOneAndUpdate(filter, { $set: data }, { new: true })]: the
    first matching document takes the supplied properties and keeps its
    others; the result is the updated document, or [None] for null. *)
Definition findOneAndUpdate (m : Model) (filter data : JSObject) (st : State)
    : option JSObject * State :=
  match findOne st m filter with
  | None => (None, st)
  | Some doc =>
      (Some (data ∪ doc),
       setCollections
         (<[collectionName m :=
              replaceFirst (matches filter) (fun d => data ∪ d) (documents st m)]>
            (collections st)) st)
  end.

(** [Model.findOneAndDelete(filter)]: the first matching document leaves the
    collection; the result is that document, or [None] for null. *)
Definition findOneAndDelete (m : Model) (filter : JSObject) (st : State)
    : option JSObject * State :=
  match findOne st m filter with
  | None => (None, st)
  | Some doc =>
      (Some doc,
       setCollections
         (<[collectionName m := removeFirst (matches filter) (documents st m)]>
            (collections st)) st)
  end.
End ModelOperations.

(** ** Code the two services share

    [schema.service.ts] and [master.service.ts] carry the same text for
    [getMongooseType], for the system fields and the non-master branch of
    [buildSchemaDefinition], and for the conversion loop of [createData]. *)

(** A method that reads the state and may throw, followed by the rest of a
    method that also writes it: a throw leaves the state as it is. *)
Definition andThen {A B : Type} (r : Result A) (st : State)
    (k : A -> Result B * State) : Result B * State :=
  match r with
  | Ok a => k a
  | Throw e => (Throw e, st)
  end.

Notation "'let!' x ':=' r 'at' st 'in' k" := (andThen r st (fun x => k))
  (at level 10, x name, r at level 100, st at level 9, k at level 200).

Fixpoint mapResult {A B : Type} (f : A -> Result B) (xs : list A) : Result (list B) :=
  match xs with
  | [] => Ok []
  | x :: rest => let* y := f x in let* ys := mapResult f rest in Ok (y :: ys)
  end.

(** [s.toLowerCase()] where [s] may be undefined. *)
Definition toLowerCaseOf (s : option string) : Result string :=
  match s with
  | Some s => Ok (toLowerCase s)
  | None => Throw TypeError
  end.

(** The truthiness of an optional string. *)
Definition nonEmpty (s : option string) : bool :=
  match s with
  | Some s => negb (String.eqb s "")
  | None => false
  end.

(** [`${schemaName.toLowerCase()}Id`]. *)
Definition idFieldNameOf (schemaName : string) : string :=
  toLowerCase schemaName +:+ "Id".

Definition getMongooseType (type : FieldType) : SchemaTypeOptions.t :=
  SchemaTypeOptions.make
    match type with
    | STRING => SString
    | NUMBER => SNumber
    | BOOLEAN => SBoolean
    | DATE => SDate
    | OBJECT => SObject
    | ARRAY => SArray
    | MASTER => SString          (* default: *)
    end
    false false NoDefault None.

(** The identifier field and the four standard fields every schema
    definition starts with. *)
Definition systemPaths (schemaName : string) : gmap string PathDefinition :=
  <["isDeleted" := Path (SchemaTypeOptions.make SBoolean false false
                           (DefaultConst (VBool false)) None)]>
  (<["isActive" := Path (SchemaTypeOptions.make SBoolean false false
                           (DefaultConst (VBool true)) None)]>
  (<["updatedAt" := Path (SchemaTypeOptions.make SDate false false DefaultNow None)]>
  (<["createdAt" := Path (SchemaTypeOptions.make SDate false false DefaultNow None)]>
  (<[idFieldNameOf schemaName :=
       Path (SchemaTypeOptions.make SString true true DefaultNanoid None)]> ∅)))).

(** The [else] branch of the [forEach] of [buildSchemaDefinition]: the path
    of a field that is not a master reference. *)
Definition plainPath (field : FieldDefinition.t) : PathDefinition :=
  let o := getMongooseType (FieldDefinition.type field) in
  let o := if FieldDefinition.required field
           then SchemaTypeOptions.make (SchemaTypeOptions.type o) true
                  (SchemaTypeOptions.unique o) (SchemaTypeOptions.default o)
                  (SchemaTypeOptions.ref o)
           else o in
  let o := if FieldDefinition.unique field
           then SchemaTypeOptions.make (SchemaTypeOptions.type o)
                  (SchemaTypeOptions.required o) true (SchemaTypeOptions.default o)
                  (SchemaTypeOptions.ref o)
           else o in
  let o := if isUndefined (FieldDefinition.defaultValue field)
           then o
           else SchemaTypeOptions.make (SchemaTypeOptions.type o)
                  (SchemaTypeOptions.required o) (SchemaTypeOptions.unique o)
                  (DefaultConst (FieldDefinition.defaultValue field))
                  (SchemaTypeOptions.ref o) in
  Path o.

Section Coercion.
Context `{Host}.

(** The body of the loop [for (const field of schemaDef.fields)] of
    [createData], applied to [value = data[field.name]]: it throws, or
    assigns [convertedData[field.name]] ([Some]), or assigns nothing
    ([None]).  Nothing inside the [try] throws anything but a
    BadRequestException, so the [catch] only rethrows. *)
Definition convertField (field : FieldDefinition.t) (value : Value)
    : Result (option Value) :=
  let name := FieldDefinition.name field in
  (* Skip if field is not provided and not required *)
  if isUndefined value && negb (FieldDefinition.required field) then Ok None
  (* Validate required fields *)
  else if FieldDefinition.required field && isUndefined value then
    Throw (BadRequestException (FieldIsRequired name))
  (* Skip type validation for MASTER type fields *)
  else if bool_decide (FieldDefinition.type field = MASTER) then Ok (Some value)
  else
    match FieldDefinition.type field with
    | NUMBER =>
        if negb (isUndefined value) then
          let num := ToNumber value in
          if isNaN num then Throw (BadRequestException (MustBeValidNumber name))
          else Ok (Some (VNum num))
        else Ok None
    | BOOLEAN =>
        if negb (isUndefined value) then
          match value with
          | VStr s => Ok (Some (VBool (String.eqb (toLowerCase s) "true")))
          | _ => Ok (Some (VBool (ToBoolean value)))
          end
        else Ok None
    | DATE =>
        if negb (isUndefined value) then
          let date := newDate value in
          if isNaN date then Throw (BadRequestException (MustBeValidDate name))
          else Ok (Some (VDate date))
        else Ok None
    | ARRAY =>
        if negb (isUndefined value) && negb (isArray value) then
          Throw (BadRequestException (MustBeArray name))
        else Ok (Some value)
    | OBJECT =>
        if negb (isUndefined value) && negb (typeofObject value) then
          Throw (BadRequestException (MustBeObject name))
        else Ok (Some value)
    | STRING | MASTER => Ok (Some value)          (* default: *)
    end.

(** The whole loop, from [convertedData = {}]. *)
Fixpoint convertFields (fields : list FieldDefinition.t) (data convertedData : JSObject)
    : Result JSObject :=
  match fields with
  | [] => Ok convertedData
  | field :: rest =>
      let* converted := convertField field (prop data (FieldDefinition.name field)) in
      match converted with
      | Some v => convertFields rest data (<[FieldDefinition.name field := v]> convertedData)
      | None => convertFields rest data convertedData
      end
  end.
End Coercion.

(** ** Listing *)

Inductive Order : Type := asc | desc.

(** [interface FindAllOptions]; [None] is an option left undefined. *)
Module FindAllOptions.
Record t : Type := make {
  page : option Z;
  limit : option Z;
  sort : option string;
  order : option Order;
  search : option string;
  filters : option JSObject
}.
End FindAllOptions.

(** [a / b] on integers, as a JavaScript number. *)
Definition divide (a b : Z) : number :=
  if (b =? 0)%Z then (if (a =? 0)%Z then NaN else Infinity (a <? 0)%Z)
  else Finite (inject_Z a / inject_Z b).

(** [Math.ceil]. *)
Definition Math_ceil (n : number) : number :=
  match n with
  | Finite q => Finite (inject_Z (Qceiling q))
  | _ => n
  end.

(** [{ $regex: search, $options: 'i' }]. *)
Definition regexCondition (search : string) : Value :=
  VObj [("$regex", VStr search); ("$options", VStr "i")].

(** [{ [sort]: order === 'desc' ? -1 : 1 }]. *)
Definition sortDirection (order : Order) : Z :=
  match order with desc => (-1)%Z | asc => 1%Z end.

(** [Model.find(query).sort(...).skip(skip).limit(limit)], executed. *)
Definition runCursor `{Host} (st : State) (m : Model) (query : JSObject)
    (sort : string) (order : Order) (skip limit : Z) : Result (list JSObject) :=
  let* skipped := skipDocs skip (sortDocs sort (sortDirection order) (find st m query)) in
  Ok (limitDocs limit skipped).

(** ** MasterService (master.service.ts) *)

(** The values the remaining operations resolve to. *)
Inductive Acknowledgement : Type :=
| DataDeletedSuccessfully
    (* { message: 'Data deleted successfully' } *)
| RecordDeletedSuccessfully
    (* { message: 'Record deleted successfully' } *)
| UpdatedSuccessfully (schemaName : string).
    (* { message: `Schema ${schemaName} updated successfully` } *)

(** What [findAll] resolves to: [{ data, total, page, limit, totalPages }]. *)
Module Paginated.
Record t : Type := make {
  data : list JSObject;
  total : nat;
  page : Z;
  limit : Z;
  totalPages : number
}.
End Paginated.

Module MasterService.
Section WithHost.
Context `{Host}.

Definition getModel (st : State) (schemaName : string) : Result Model :=
  let schemaNameLower := toLowerCase schemaName in
  match masterServiceCache st !! schemaNameLower with
  | None => Throw (NotFoundException (SchemaDoesNotExist schemaName))
  | Some cached => Ok (model cached)
  end.

(** One step of [createSchemaDto.fields.forEach(field => ...)]: a master
    field becomes a single [String] slot whatever its relationship type. *)
Definition addField (definition : gmap string PathDefinition) (field : FieldDefinition.t)
    : Result (gmap string PathDefinition) :=
  if bool_decide (FieldDefinition.type field = MASTER) then
    let* masterType := toLowerCaseOf (FieldDefinition.masterType field) in
    let fieldName := masterType +:+ "Id" in
    Ok (<[fieldName := Path (SchemaTypeOptions.make SString
                               (FieldDefinition.required field || false) false
                               NoDefault (Some masterType))]> definition)
  else
    Ok (<[FieldDefinition.name field := plainPath field]> definition).

Definition buildSchemaDefinition (createSchemaDto : CreateSchemaDto.t)
    : Result (gmap string PathDefinition) :=
  fold_left (fun acc field => let* definition := acc in addField definition field)
    (CreateSchemaDto.fields createSchemaDto)
    (Ok (systemPaths (CreateSchemaDto.name createSchemaDto))).

Definition updateSchemaCache (schemaName : string) (schema : CreateSchemaDto.t)
    (st : State) : Result unit * State :=
  let schemaNameLower := toLowerCase schemaName in
  let! schemaDefinition := buildSchemaDefinition schema at st in
  (* Remove existing model if it exists *)
  let st1 := if bool_decide (is_Some (models st !! schemaNameLower))
             then deleteModel schemaNameLower st else st in
  let '(Model, st2) := compileModel schemaNameLower schemaDefinition st1 in
  (Ok tt,
   setMasterServiceCache
     (<[schemaNameLower := {| schema := schema; model := Model |}]>
        (masterServiceCache st2)) st2).

Definition handleSchemaCreated (schemaName : string) (schema : CreateSchemaDto.t)
    (st : State) : Result unit * State :=
  updateSchemaCache schemaName schema st.

Definition handleSchemaUpdated (schemaName : string) (schema : CreateSchemaDto.t)
    (st : State) : Result unit * State :=
  updateSchemaCache schemaName schema st.

(** [masterModel.exists({ [`${masterType}Id`]: id })], or the exception. *)
Definition checkReference (st : State) (masterModel : Model) (masterType : string)
    (id : Value) : Result unit :=
  if exists_ st masterModel {[ masterType +:+ "Id" := id ]} then Ok tt
  else Throw (BadRequestException (InvalidReference id masterType)).

(** The body of the loop of [validateMasterReferences]. *)
Definition validateField (st : State) (data : JSObject) (field : FieldDefinition.t)
    : Result unit :=
  if bool_decide (FieldDefinition.type field = MASTER)
     && ToBoolean (prop data (FieldDefinition.name field)) then
    let* masterType := toLowerCaseOf (FieldDefinition.masterType field) in
    let* masterModel := getModel st masterType in
    let masterId := prop data (FieldDefinition.name field) in
    match masterId with
    | VArr ids => forEach (checkReference st masterModel masterType) ids
    | _ => checkReference st masterModel masterType masterId
    end
  else Ok tt.

Definition validateMasterReferences (st : State) (schemaName : string) (data : JSObject)
    : Result unit :=
  match masterServiceCache st !! toLowerCase schemaName with
  | None => Throw (NotFoundException (SchemaNotInCache schemaName))
  | Some cached =>
      forEach (validateField st data) (CreateSchemaDto.fields (schema cached))
  end.

Definition createData (schemaName : string) (data : JSObject) (st : State)
    : Result JSObject * State :=
  let! Model := getModel st schemaName at st in
  match masterServiceCache st !! toLowerCase schemaName with
  | None => (Throw (NotFoundException (SchemaNotInCache schemaName)), st)
  | Some cached =>
      let schemaDef := schema cached in
      (* Remove any attempt to set the auto-generated ID *)
      let idFieldName := idFieldNameOf schemaName in
      let data := delete idFieldName data in
      let! convertedData :=
        convertFields (CreateSchemaDto.fields schemaDef) data ∅ at st in
      let! _ := validateMasterReferences st schemaName convertedData at st in
      let '(savedInstance, st') := save Model convertedData st in
      (Ok savedInstance, st')
  end.

(** The query object [findAll] builds before it runs the cursor. *)
Definition buildQuery (options : FindAllOptions.t) : JSObject :=
  let query : JSObject := ∅ in
  let query :=
    if nonEmpty (FindAllOptions.search options) then
      let search := default "" (FindAllOptions.search options) in
      <["$or" := VArr [VObj [("name", regexCondition search)];
                       VObj [("description", regexCondition search)]]]> query
    else query in
  match FindAllOptions.filters options with
  | Some filters => filters ∪ query          (* Object.assign(query, filters) *)
  | None => query
  end.

Definition findAll (st : State) (schemaName : string) (options : FindAllOptions.t)
    : Result Paginated.t :=
  let* Model := getModel st schemaName in
  let page := default 1%Z (FindAllOptions.page options) in
  let limit := default 10%Z (FindAllOptions.limit options) in
  let sort := default "createdAt" (FindAllOptions.sort options) in
  let order := default desc (FindAllOptions.order options) in
  let query := buildQuery options in
  let* data := runCursor st Model query sort order ((page - 1) * limit) limit in
  let total := countDocuments st Model query in
  Ok (Paginated.make data total page limit (Math_ceil (divide (Z.of_nat total) limit))).

Definition update (schemaName id : string) (data : JSObject) (st : State)
    : Result JSObject * State :=
  let! Model := getModel st schemaName at st in
  match findOneAndUpdate Model {[ idFieldNameOf schemaName := VStr id ]} data st with
  | (Some updated, st') => (Ok updated, st')
  | (None, st') => (Throw (NotFoundException (DataNotFound id)), st')
  end.

Definition findOne (st : State) (schemaName id : string) : Result JSObject :=
  let* Model := getModel st schemaName in
  match findOne st Model {[ idFieldNameOf schemaName := VStr id ]} with
  | None => Throw (NotFoundException (DataNotFound id))
  | Some data => Ok data
  end.

Definition remove (schemaName id : string) (st : State)
    : Result Acknowledgement * State :=
  let! Model := getModel st schemaName at st in
  match findOneAndDelete Model {[ idFieldNameOf schemaName := VStr id ]} st with
  | (Some deleted, st') => (Ok DataDeletedSuccessfully, st')
  | (None, st') => (Throw (NotFoundException (DataNotFound id)), st')
  end.

(** The loop of [initializeSchemaCache] over the schemas
    [schemaService.getAllSchemas()] returned.  The [try] encloses the whole
    loop: the first definition that cannot be built ends it, and what was
    cached before stays.  The cached [schema] is kept without the
    [groupName] property [getAllSchemas] adds, which nothing reads. *)
Fixpoint initializeSchemaCache (schemas : list CreateSchemaDto.t) (st : State) : State :=
  match schemas with
  | [] => st
  | schema :: rest =>
      let schemaName := toLowerCase (CreateSchemaDto.name schema) in
      match buildSchemaDefinition schema with
      | Throw _ => st
      | Ok schemaDefinition =>
          let '(Model, st1) := compileModel schemaName schemaDefinition st in
          initializeSchemaCache rest
            (setMasterServiceCache
               (<[schemaName := {| schema := schema; model := Model |}]>
                  (masterServiceCache st1)) st1)
      end
  end.

End WithHost.
End MasterService.

(** ** The event emitter

    [MasterService.onModuleInit] subscribes [handleSchemaCreated] to
    'schema.created' and [handleSchemaUpdated] to 'schema.updated'; nothing
    subscribes to 'schema.deleted'.  A handler is an async function: what it
    throws rejects a promise nobody awaits, so [emit] only keeps the state. *)
Inductive SchemaEvent : Type :=
| SchemaCreated (schemaName : string) (schema : CreateSchemaDto.t)
| SchemaUpdated (schemaName : string) (schema : CreateSchemaDto.t)
| SchemaDeleted (schemaName : string).

Definition emit `{Host} (event : SchemaEvent) (st : State) : State :=
  match event with
  | SchemaCreated schemaName schema =>
      snd (MasterService.handleSchemaCreated schemaName schema st)
  | SchemaUpdated schemaName schema =>
      snd (MasterService.handleSchemaUpdated schemaName schema st)
  | SchemaDeleted _ => st
  end.

(** ** SchemaService (schema.service.ts) *)

(** What [validateMasterReferences] pushes onto [validationPromises]. *)
Inductive ReferenceCheck : Type :=
| CheckAll (masterType : string) (ids : list Value)   (* an array of references *)
| CheckOne (masterType : string) (id : Value).        (* a single reference *)

(** What [findAll] resolves to: [{ data, meta: { total, page, limit,
    totalPages } }]. *)
Module Meta.
Record t : Type := make {
  total : nat;
  page : Z;
  limit : Z;
  totalPages : number
}.
End Meta.

Module SchemaService.
Section WithHost.
Context `{Host}.

(** [collection('schemas').findOne({ 'schema.name': schemaName })]: the
    string comparison of the store is exact. *)
Definition findSchema (st : State) (schemaName : string) : option CreateSchemaDto.t :=
  List.find (fun s => String.eqb (CreateSchemaDto.name s) schemaName) (schemas st).

Definition getModel (st : State) (schemaName : string) : Result Model :=
  let schemaNameLower := toLowerCase schemaName in
  match schemaServiceCache st !! schemaNameLower with
  | None => Throw (NotFoundException (SchemaDoesNotExist schemaName))
  | Some cached => Ok (model cached)
  end.

Definition validateGroupId (st : State) (groupId : string) : Result unit :=
  if String.eqb groupId "" then Ok tt
  else
    match List.find (fun g => String.eqb (Group.groupId g) groupId) (groups st) with
    | None => Throw (BadRequestException (InvalidGroupId groupId))
    | Some _ => Ok tt
    end.

(** The function mapped over the fields by [createSchema] (and
    [updateSchema]): a master field is renamed after its master type. *)
Definition transformField (field : FieldDefinition.t) : Result FieldDefinition.t :=
  if bool_decide (FieldDefinition.type field = MASTER) then
    let* masterType := toLowerCaseOf (FieldDefinition.masterType field) in
    Ok (FieldDefinition.make (masterType +:+ "Id")
          (FieldDefinition.type field) (FieldDefinition.required field)
          (FieldDefinition.unique field) (FieldDefinition.defaultValue field)
          (FieldDefinition.masterType field) (FieldDefinition.relationshipType field))
  else Ok field.

(** The body of the loop of [validateSchema]. *)
Definition validateMasterField (st : State) (field : FieldDefinition.t) : Result unit :=
  if bool_decide (FieldDefinition.type field = MASTER) then
    if negb (nonEmpty (FieldDefinition.masterType field)) then
      Throw (BadRequestException (MasterTypeNotSpecified (FieldDefinition.name field)))
    else
      match FieldDefinition.relationshipType field with
      | None =>
          Throw (BadRequestException
                   (RelationshipTypeNotSpecified (FieldDefinition.name field)))
      | Some _ =>
          (* Check if referenced master exists *)
          let masterType := default "" (FieldDefinition.masterType field) in
          match findSchema st (toLowerCase masterType) with
          | None => Throw (BadRequestException (ReferencedMasterDoesNotExist masterType))
          | Some _ => Ok tt
          end
      end
  else Ok tt.

Definition validateSchema (st : State) (createSchemaDto : CreateSchemaDto.t)
    : Result unit :=
  (* Validate field names are unique *)
  let fieldNames := map FieldDefinition.name (CreateSchemaDto.fields createSchemaDto) in
  let uniqueFieldNames := remove_dups fieldNames in
  if negb (length fieldNames =? length uniqueFieldNames)%nat then
    Throw (BadRequestException FieldNamesMustBeUnique)
  else
    forEach (validateMasterField st) (CreateSchemaDto.fields createSchemaDto).

(** One step of [createSchemaDto.fields.forEach(field => ...)]: the slot of
    a master field follows its relationship type. *)
Definition addField (definition : gmap string PathDefinition) (field : FieldDefinition.t)
    : Result (gmap string PathDefinition) :=
  if bool_decide (FieldDefinition.type field = MASTER) then
    let* masterType := toLowerCaseOf (FieldDefinition.masterType field) in
    let fieldName := masterType +:+ "Id" in
    match FieldDefinition.relationshipType field with
    | Some ONE_TO_ONE | Some MANY_TO_ONE =>
        Ok (<[fieldName := Path (SchemaTypeOptions.make SString
                                   (FieldDefinition.required field || false) false
                                   NoDefault (Some masterType))]> definition)
    | Some ONE_TO_MANY | Some MANY_TO_MANY =>
        Ok (<[fieldName := ArrayOf (SchemaTypeOptions.make SString false false
                                      NoDefault (Some masterType))]> definition)
    | None =>
        Throw (BadRequestException (InvalidRelationshipType (FieldDefinition.name field)))
    end
  else
    Ok (<[FieldDefinition.name field := plainPath field]> definition).

Definition buildSchemaDefinition (createSchemaDto : CreateSchemaDto.t)
    : Result (gmap string PathDefinition) :=
  fold_left (fun acc field => let* definition := acc in addField definition field)
    (CreateSchemaDto.fields createSchemaDto)
    (Ok (systemPaths (CreateSchemaDto.name createSchemaDto))).

Definition createSchema (createSchemaDto : CreateSchemaDto.t) (st : State)
    : Result Reply * State :=
  let schemaName := toLowerCase (CreateSchemaDto.name createSchemaDto) in
  (* Check if schema already exists *)
  match findSchema st schemaName with
  | Some _ => (Throw (BadRequestException (SchemaAlreadyExists schemaName)), st)
  | None =>
      (* Transform master field names *)
      let! fields :=
        mapResult transformField (CreateSchemaDto.fields createSchemaDto) at st in
      let transformedSchema :=
        CreateSchemaDto.make (CreateSchemaDto.name createSchemaDto)
          (CreateSchemaDto.displayName createSchemaDto) fields
          (CreateSchemaDto.groupId createSchemaDto) in
      let! _ := validateSchema st transformedSchema at st in
      let! _ := (if nonEmpty (CreateSchemaDto.groupId transformedSchema)
                 then validateGroupId st
                        (default "" (CreateSchemaDto.groupId transformedSchema))
                 else Ok tt) at st in
      (* Store schema *)
      let st1 := setSchemas (schemas st ++ [transformedSchema]) st in
      (* Create and cache the model *)
      let! schemaDefinition := buildSchemaDefinition transformedSchema at st1 in
      let '(Model, st2) := compileModel schemaName schemaDefinition st1 in
      let st3 :=
        setSchemaServiceCache
          (<[schemaName := {| schema := transformedSchema; model := Model |}]>
             (schemaServiceCache st2)) st2 in
      let st4 := emit (SchemaCreated schemaName transformedSchema) st3 in
      (Ok (CreatedSuccessfully schemaName), st4)
  end.

Definition getSchema (st : State) (schemaName : string) : Result CreateSchemaDto.t :=
  match findSchema st (toLowerCase schemaName) with
  | None => Throw (NotFoundException (SchemaDoesNotExist schemaName))
  | Some schema => Ok schema
  end.

(** [{ 'schema.fields': { $elemMatch: { type: 'master', masterType:
    schemaNameLower } } }]. *)
Definition referencesSchema (schemaNameLower : string) (s : CreateSchemaDto.t) : bool :=
  existsb (fun field =>
             bool_decide (FieldDefinition.type field = MASTER)
             && bool_decide (FieldDefinition.masterType field = Some schemaNameLower))
    (CreateSchemaDto.fields s).

(** Inside the [try] the store calls are taken to succeed (a failing [drop]
    is caught on the spot by the source), so the [catch] that throws
    [InternalServerErrorException] is not entered. *)
Definition deleteSchema (schemaName : string) (force : bool) (st : State)
    : Result Reply * State :=
  let schemaNameLower := toLowerCase schemaName in
  match findSchema st schemaNameLower with
  | None => (Throw (NotFoundException (SchemaDoesNotExist schemaName)), st)
  | Some _ =>
      (* Check if schema is referenced by other schemas *)
      let referencingSchemas :=
        List.filter (referencesSchema schemaNameLower) (schemas st) in
      if (0 <? length referencingSchemas)%nat && negb force then
        (Throw (BadRequestException
                  (ReferencedByOtherSchemas schemaName
                     (map CreateSchemaDto.name referencingSchemas))), st)
      else
        (* Delete the schema from the database *)
        let st1 :=
          setSchemas
            (removeFirst (fun s => String.eqb (CreateSchemaDto.name s) schemaNameLower)
               (schemas st)) st in
        (* Delete the model from Mongoose *)
        let st2 := if bool_decide (is_Some (models st1 !! schemaNameLower))
                   then deleteModel schemaNameLower st1 else st1 in
        (* Remove from cache *)
        let st3 :=
          setSchemaServiceCache (delete schemaNameLower (schemaServiceCache st2)) st2 in
        (* If force=true, also delete all data in the collection *)
        let st4 := if force
                   then setCollections (delete schemaNameLower (collections st3)) st3
                   else st3 in
        let st5 := emit (SchemaDeleted schemaNameLower) st4 in
        (Ok (DeletedSuccessfully schemaName), st5)
  end.

(** The synchronous part of the loop of [validateMasterReferences]: it
    throws for a required reference that is missing, and otherwise collects
    the checks it starts. *)
Fixpoint collectChecks (data : JSObject) (isUpdate : bool)
    (fields : list FieldDefinition.t) : Result (list ReferenceCheck) :=
  match fields with
  | [] => Ok []
  | field :: rest =>
      (* Skip validation if this is an update and the field is not being updated *)
      if isUpdate && negb (hasProp (FieldDefinition.name field) data) then
        collectChecks data isUpdate rest
      else if bool_decide (FieldDefinition.type field = MASTER) then
        let* masterType := toLowerCaseOf (FieldDefinition.masterType field) in
        let masterId := prop data (FieldDefinition.name field) in
        if FieldDefinition.required field && negb (ToBoolean masterId) then
          Throw (BadRequestException (FieldIsRequired (FieldDefinition.name field)))
        else if ToBoolean masterId then
          let* checks := collectChecks data isUpdate rest in
          Ok (match masterId with
              | VArr ids => CheckAll masterType ids
              | _ => CheckOne masterType masterId
              end :: checks)
        else collectChecks data isUpdate rest
      else collectChecks data isUpdate rest
  end.

(** [this.connection.models[masterType].exists({ [`${masterType}Id`]: id })],
    or the exception. *)
Definition checkReference (st : State) (masterType : string) (id : Value) : Result unit :=
  match models st !! masterType with
  | None => Throw TypeError
  | Some masterModel =>
      if exists_ st masterModel {[ masterType +:+ "Id" := id ]} then Ok tt
      else Throw (BadRequestException (InvalidReference id masterType))
  end.

Definition runCheck (st : State) (check : ReferenceCheck) : Result unit :=
  match check with
  | CheckAll masterType ids => forEach (checkReference st masterType) ids
  | CheckOne masterType id => checkReference st masterType id
  end.

(** The checks run as promises gathered by [Promise.all]; the store answers
    them in the order they were issued, so the rejection that surfaces is
    the first in field order, then in element order. *)
Definition validateMasterReferences (st : State) (schemaName : string)
    (data : JSObject) (isUpdate : bool) : Result unit :=
  match findSchema st (toLowerCase schemaName) with
  | None => Throw (NotFoundException (SchemaDoesNotExist schemaName))
  | Some schema =>
      let* validationPromises :=
        collectChecks data isUpdate (CreateSchemaDto.fields schema) in
      forEach (runCheck st) validationPromises
  end.

Definition createData (schemaName : string) (data : JSObject) (st : State)
    : Result JSObject * State :=
  let! Model := getModel st schemaName at st in
  (* Remove any attempt to set the auto-generated ID *)
  let idFieldName := idFieldNameOf schemaName in
  let data := delete idFieldName data in
  match schemaServiceCache st !! toLowerCase schemaName with
  | None => (Throw (NotFoundException (SchemaNotInCache schemaName)), st)
  | Some cached =>
      let schemaDef := schema cached in
      let! convertedData :=
        convertFields (CreateSchemaDto.fields schemaDef) data ∅ at st in
      let! _ := validateMasterReferences st schemaName convertedData false at st in
      let '(savedInstance, st') := save Model convertedData st in
      (Ok savedInstance, st')
  end.

(** The query object [findAll] builds before it runs the cursor; the paths
    of the model are enumerated in the order of the map. *)
Definition buildQuery (Model : Model) (options : FindAllOptions.t) : JSObject :=
  let query : JSObject := ∅ in
  (* Add search condition if provided *)
  let query :=
    if nonEmpty (FindAllOptions.search options) then
      let search := default "" (FindAllOptions.search options) in
      let searchFields :=
        map fst (List.filter (fun '(path, definition) =>
                                String.eqb (instance definition) "String")
                   (map_to_list (schemaDefinition Model))) in
      <["$or" := VArr (map (fun field => VObj [(field, regexCondition search)])
                         searchFields)]> query
    else query in
  (* Add filters if provided *)
  match FindAllOptions.filters options with
  | Some filters => filters ∪ query
  | None => query
  end.

Definition findAll (st : State) (schemaName : string) (options : FindAllOptions.t)
    : Result (list JSObject * Meta.t) :=
  let* Model := getModel st schemaName in
  let page := default 1%Z (FindAllOptions.page options) in
  let limit := default 10%Z (FindAllOptions.limit options) in
  let sort := default "createdAt" (FindAllOptions.sort options) in
  let order := default desc (FindAllOptions.order options) in
  let query := buildQuery Model options in
  (* Calculate pagination *)
  let skip := ((page - 1) * limit)%Z in
  let* data := runCursor st Model query sort order skip limit in
  let total := countDocuments st Model query in
  Ok (data, Meta.make total page limit (Math_ceil (divide (Z.of_nat total) limit))).

(** The result is the updated document, [None] standing for null. *)
Definition update (schemaName id : string) (data : JSObject) (st : State)
    : Result (option JSObject) * State :=
  let! Model := getModel st schemaName at st in
  (* Get the correct ID field name *)
  let idFieldName := idFieldNameOf schemaName in
  (* First find the existing document to check if it exists *)
  match findOne st Model {[ idFieldName := VStr id ]} with
  | None => (Throw (NotFoundException (RecordNotFound schemaName)), st)
  | Some existingDoc =>
      (* Remove any attempt to update the auto-generated ID *)
      let data := delete idFieldName data in
      (* Validate only the fields being updated *)
      let! _ := validateMasterReferences st schemaName data true at st in
      (* Update only the provided fields *)
      let '(updated, st') :=
        findOneAndUpdate Model {[ idFieldName := VStr id ]} data st in
      (Ok updated, st')
  end.

Definition findOne (st : State) (schemaName id : string) : Result JSObject :=
  let* Model := getModel st schemaName in
  (* Use the correct ID field for the schema (e.g., cityId for city schema) *)
  let idFieldName := idFieldNameOf schemaName in
  match findOne st Model {[ idFieldName := VStr id ]} with
  | None => Throw (NotFoundException (RecordNotFound schemaName))
  | Some data => Ok data
  end.

Definition remove (schemaName id : string) (st : State)
    : Result Acknowledgement * State :=
  let! Model := getModel st schemaName at st in
  let idFieldName := idFieldNameOf schemaName in
  match findOneAndDelete Model {[ idFieldName := VStr id ]} st with
  | (Some deleted, st') => (Ok RecordDeletedSuccessfully, st')
  | (None, st') => (Throw (NotFoundException (RecordNotFound schemaName)), st')
  end.

(** [updateOne({ 'schema.name': schemaNameLower }, { $set: { schema:
    transformedSchema } })] replaces the first definition stored under the
    name by the body of the request, whose own name is kept as written. *)
Definition updateSchema (schemaName : string) (updateSchemaDto : CreateSchemaDto.t)
    (st : State) : Result Acknowledgement * State :=
  let schemaNameLower := toLowerCase schemaName in
  (* Check if schema exists *)
  match findSchema st schemaNameLower with
  | None => (Throw (NotFoundException (SchemaDoesNotExist schemaName)), st)
  | Some _ =>
      (* Transform master field names *)
      let! fields :=
        mapResult transformField (CreateSchemaDto.fields updateSchemaDto) at st in
      let transformedSchema :=
        CreateSchemaDto.make (CreateSchemaDto.name updateSchemaDto)
          (CreateSchemaDto.displayName updateSchemaDto) fields
          (CreateSchemaDto.groupId updateSchemaDto) in
      let! _ := validateSchema st transformedSchema at st in
      let! _ := (if nonEmpty (CreateSchemaDto.groupId transformedSchema)
                 then validateGroupId st
                        (default "" (CreateSchemaDto.groupId transformedSchema))
                 else Ok tt) at st in
      (* Update schema *)
      let st1 :=
        setSchemas
          (replaceFirst (fun s => String.eqb (CreateSchemaDto.name s) schemaNameLower)
             (fun _ => transformedSchema) (schemas st)) st in
      (* Update model in cache *)
      let! schemaDefinition := buildSchemaDefinition transformedSchema at st1 in
      let '(Model, st2) := compileModel schemaNameLower schemaDefinition st1 in
      let st3 :=
        setSchemaServiceCache
          (<[schemaNameLower := {| schema := transformedSchema; model := Model |}]>
             (schemaServiceCache st2)) st2 in
      let st4 := emit (SchemaUpdated schemaNameLower transformedSchema) st3 in
      (Ok (UpdatedSuccessfully schemaName), st4)
  end.

(** [getAllSchemas]: every stored definition with the [groupName] of its
    group: null without a group id, undefined when no group bears the id. *)
Definition getAllSchemas (st : State) : list (CreateSchemaDto.t * Value) :=
  (* Get all unique groupIds from schemas *)
  let groupIds :=
    remove_dups
      (omap (fun s => if nonEmpty (CreateSchemaDto.groupId s)
                      then CreateSchemaDto.groupId s else None) (schemas st)) in
  (* Fetch all groups in one query *)
  let found :=
    if (0 <? length groupIds)%nat
    then List.filter (fun g => bool_decide (Group.groupId g ∈ groupIds)) (groups st)
    else [] in
  (* Create a map of groupId to groupName for quick lookup *)
  let groupMap : gmap string string :=
    fold_left (fun m g => <[Group.groupId g := Group.groupName g]> m) found ∅ in
  (* Map schemas and include groupName *)
  map (fun s =>
         (s,
          if nonEmpty (CreateSchemaDto.groupId s) then
            match groupMap !! default "" (CreateSchemaDto.groupId s) with
            | Some groupName => VStr groupName
            | None => VUndefined
            end
          else VNull))
    (schemas st).

(** The loop of [loadStoredSchemas] over the documents of the [schemas]
    collection.  The [try] encloses the whole loop: the first definition
    that cannot be built ends it, and what was cached before stays. *)
Fixpoint loadSchemas (schemas : list CreateSchemaDto.t) (st : State) : State :=
  match schemas with
  | [] => st
  | createSchemaDto :: rest =>
      let schemaName := toLowerCase (CreateSchemaDto.name createSchemaDto) in
      match buildSchemaDefinition createSchemaDto with
      | Throw _ => st
      | Ok schemaDefinition =>
          let '(Model, st1) := compileModel schemaName schemaDefinition st in
          (* Store in cache *)
          loadSchemas rest
            (setSchemaServiceCache
               (<[schemaName := {| schema := createSchemaDto; model := Model |}]>
                  (schemaServiceCache st1)) st1)
      end
  end.

Definition loadStoredSchemas (st : State) : State := loadSchemas (schemas st) st.

End WithHost.
End SchemaService.

(** ** Start of the process

    The constructor of [SchemaService] loads the stored schemas into its
    cache, then [MasterService.onModuleInit] fills its own from
    [getAllSchemas] (and subscribes the two handlers, see [emit]). *)
Definition onModuleInit (st : State) : State :=
  MasterService.initializeSchemaCache (map fst (SchemaService.getAllSchemas st)) st.

Definition startProcess (st : State) : State :=
  onModuleInit (SchemaService.loadStoredSchemas st).

(** ** A reference host

    A host on which the model can be run on concrete requests: the
    conversions of ECMA-262 with the exact-rational reading of numbers,
    UTC as the local time zone, literal patterns for [$regex], and a
    generator that numbers its identifiers.  Only the closed examples use
    it; no general theorem looks inside a host. *)

Definition isWhiteSpace (c : ascii) : bool :=
  let n := nat_of_ascii c in
  (n =? 32)%nat || ((9 <=? n)%nat && (n <=? 13)%nat).

Fixpoint trimStart (cs : list ascii) : list ascii :=
  match cs with
  | c :: rest => if isWhiteSpace c then trimStart rest else cs
  | [] => []
  end.

Definition trim (cs : list ascii) : list ascii :=
  rev (trimStart (rev (trimStart cs))).

(** The value of a digit in the given base (letters for bases above ten). *)
Definition digitValue (base : Z) (c : ascii) : option Z :=
  let n := Z.of_nat (nat_of_ascii c) in
  let d := if (48 <=? n)%Z && (n <=? 57)%Z then (n - 48)%Z
           else if (97 <=? n)%Z && (n <=? 102)%Z then (n - 87)%Z
           else if (65 <=? n)%Z && (n <=? 70)%Z then (n - 55)%Z
           else 99%Z in
  if (d <? base)%Z then Some d else None.

(** The longest run of digits at the head of [cs]: its value continued from
    [acc], its length continued from [count], and the rest. *)
Fixpoint spanDigits (base : Z) (cs : list ascii) (acc : Z) (count : nat)
    : Z * nat * list ascii :=
  match cs with
  | c :: rest =>
      match digitValue base c with
      | Some d => spanDigits base rest (acc * base + d)%Z (S count)
      | None => (acc, count, cs)
      end
  | [] => (acc, count, [])
  end.

(** [mantissa * 10 ^ exponent]. *)
Definition scale (mantissa exponent : Z) : Q :=
  if (0 <=? exponent)%Z then inject_Z (mantissa * 10 ^ exponent)
  else Qred (mantissa # Z.to_pos (10 ^ (- exponent))).

(** StrUnsignedDecimalLiteral without [Infinity]: digits, an optional
    fraction, an optional exponent, with a digit on one side of the dot. *)
Definition parseDecimalLiteral (cs : list ascii) : option Q :=
  let '(i, ni, r1) := spanDigits 10 cs 0 0 in
  let '(m, nf, r2) :=
    match r1 with
    | "."%char :: r => spanDigits 10 r i 0
    | _ => (i, 0%nat, r1)
    end in
  if (ni + nf =? 0)%nat then None
  else
    match r2 with
    | [] => Some (scale m (- Z.of_nat nf))
    | e :: r3 =>
        if Ascii.eqb e "e" || Ascii.eqb e "E" then
          let '(negative, r4) :=
            match r3 with
            | "-"%char :: r => (true, r)
            | "+"%char :: r => (false, r)
            | _ => (false, r3)
            end in
          let '(x, nx, r5) := spanDigits 10 r4 0 0 in
          match nx, r5 with
          | S _, [] => Some (scale m ((if negative then - x else x) - Z.of_nat nf))
          | _, _ => None
          end
        else None
    end.

(** NonDecimalIntegerLiteral: 0x, 0o and 0b. *)
Definition parseNonDecimal (cs : list ascii) : option Z :=
  match cs with
  | "0"%char :: p :: rest =>
      let base := if Ascii.eqb p "x" || Ascii.eqb p "X" then 16%Z
                  else if Ascii.eqb p "o" || Ascii.eqb p "O" then 8%Z
                  else if Ascii.eqb p "b" || Ascii.eqb p "B" then 2%Z
                  else 0%Z in
      if (base =? 0)%Z then None
      else
        match spanDigits base rest 0 0 with
        | (v, S _, []) => Some v
        | _ => None
        end
  | _ => None
  end.

Definition refStringToNumber (s : string) : number :=
  let cs := trim (list_ascii_of_string s) in
  match cs with
  | [] => Finite 0
  | _ =>
      match parseNonDecimal cs with
      | Some v => Finite (inject_Z v)
      | None =>
          let '(negative, body) :=
            match cs with
            | "-"%char :: r => (true, r)
            | "+"%char :: r => (false, r)
            | _ => (false, cs)
            end in
          if String.eqb (string_of_list_ascii body) "Infinity" then Infinity negative
          else
            match parseDecimalLiteral body with
            | Some q => Finite (if negative then - q else q)
            | None => NaN
            end
      end
  end.

Definition decimal (z : Z) : string := NilZero.string_of_int (Z.to_int z).

(** [decimal z], padded with zeros on the left to [width] characters. *)
Definition padded (width : nat) (z : Z) : string :=
  let d := decimal z in
  string_of_list_ascii (repeat "0"%char (width - String.length d)) +:+ d.

(** The digits of [num / den] after the point, for [0 <= num < den]. *)
Fixpoint fractionDigits (fuel : nat) (num den : Z) : string :=
  match fuel with
  | O => ""
  | S fuel' =>
      if (num =? 0)%Z then ""
      else String (ascii_of_nat (48 + Z.to_nat (num * 10 / den)))
             (fractionDigits fuel' ((num * 10) mod den) den)
  end.

(** Number::toString in plain decimal notation (no exponent form). *)
Definition numberToString (n : number) : string :=
  match n with
  | NaN => "NaN"
  | Infinity negative => if negative then "-Infinity" else "Infinity"
  | Finite q =>
      let r := Qred q in
      let a := Z.abs (Qnum r) in
      let d := Zpos (Qden r) in
      (if (Qnum r <? 0)%Z then "-" else "")
      +:+ decimal (a / d)
      +:+ (if (a mod d =? 0)%Z then "" else "." +:+ fractionDigits 25 (a mod d) d)
  end.

(** Days since 1970-01-01 of a civil date, and back. *)
Definition daysFromCivil (y m d : Z) : Z :=
  let y' := if (m <=? 2)%Z then (y - 1)%Z else y in
  let era := (y' / 400)%Z in
  let yoe := (y' - era * 400)%Z in
  let doy := ((153 * (if (2 <? m)%Z then m - 3 else m + 9) + 2) / 5 + d - 1)%Z in
  let doe := (yoe * 365 + yoe / 4 - yoe / 100 + doy)%Z in
  (era * 146097 + doe - 719468)%Z.

Definition civilFromDays (days : Z) : Z * Z * Z :=
  let z := (days + 719468)%Z in
  let era := (z / 146097)%Z in
  let doe := (z - era * 146097)%Z in
  let yoe := ((doe - doe / 1460 + doe / 36524 - doe / 146096) / 365)%Z in
  let doy := (doe - (365 * yoe + yoe / 4 - yoe / 100))%Z in
  let mp := ((5 * doy + 2) / 153)%Z in
  let d := (doy - (153 * mp + 2) / 5 + 1)%Z in
  let m := if (mp <? 10)%Z then (mp + 3)%Z else (mp - 9)%Z in
  let y := (yoe + era * 400 + (if (m <=? 2)%Z then 1 else 0))%Z in
  (y, m, d).

Definition daysInMonth (y m : Z) : Z :=
  (daysFromCivil (if (m =? 12)%Z then y + 1 else y) (if (m =? 12)%Z then 1 else m + 1) 1
   - daysFromCivil y m 1)%Z.

(** Exactly [n] decimal digits at the head of [cs]. *)
Definition fixedDigits (n : nat) (cs : list ascii) : option (Z * list ascii) :=
  match spanDigits 10 (take n cs) 0 0 with
  | (v, k, []) => if (k =? n)%nat then Some (v, drop n cs) else None
  | _ => None
  end.

(** [close] when the text is over, else [sep] followed by what [next] reads. *)
Definition optionalPart {A : Type} (sep : ascii) (cs : list ascii) (absent : A)
    (next : list ascii -> option (A * list ascii)) : option (A * list ascii) :=
  match cs with
  | c :: rest => if Ascii.eqb c sep then next rest else Some (absent, cs)
  | [] => Some (absent, [])
  end.

(** The time zone suffix: nothing, [Z], or [+HH:mm] / [-HH:mm]; the result
    is the offset in minutes. *)
Definition parseOffset (cs : list ascii) : option Z :=
  match cs with
  | [] => Some 0%Z
  | ["Z"%char] => Some 0%Z
  | sign :: rest =>
      if Ascii.eqb sign "+" || Ascii.eqb sign "-" then
        match fixedDigits 2 rest with
        | Some (h, ":"%char :: rest') =>
            match fixedDigits 2 rest' with
            | Some (m, []) =>
                if (h <=? 23)%Z && (m <=? 59)%Z
                then Some ((if Ascii.eqb sign "-" then -1 else 1) * (h * 60 + m))%Z
                else None
            | _ => None
            end
        | _ => None
        end
      else None
  end.

(** The time part [HH:mm], [HH:mm:ss] or [HH:mm:ss.sss] and the offset, in
    milliseconds. *)
Definition parseTime (cs : list ascii) : option Z :=
  match fixedDigits 2 cs with
  | Some (h, ":"%char :: r1) =>
      match fixedDigits 2 r1 with
      | Some (m, r2) =>
          match optionalPart ":" r2 (0%Z, 0%Z)
                  (fun r =>
                     match fixedDigits 2 r with
                     | Some (sec, r3) =>
                         match optionalPart "." r3 0%Z (fixedDigits 3) with
                         | Some (ms, r4) => Some ((sec, ms), r4)
                         | None => None
                         end
                     | None => None
                     end) with
          | Some ((sec, ms), r5) =>
              match parseOffset r5 with
              | Some offset =>
                  if (h <=? 23)%Z && (m <=? 59)%Z && (sec <=? 59)%Z
                  then Some (((h * 60 + m - offset) * 60 + sec) * 1000 + ms)%Z
                  else None
              | None => None
              end
          | None => None
          end
      | None => None
      end
  | _ => None
  end.

(** [Date.parse] on the date-time string format of 21.4.1.32 with a
    four-digit year; any other text is not a date. *)
Definition refDateParse (s : string) : number :=
  let cs := list_ascii_of_string s in
  match fixedDigits 4 cs with
  | Some (y, r1) =>
      match optionalPart "-" r1 (1%Z, 1%Z)
              (fun r =>
                 match fixedDigits 2 r with
                 | Some (m, r2) =>
                     match optionalPart "-" r2 1%Z (fixedDigits 2) with
                     | Some (d, r3) => Some ((m, d), r3)
                     | None => None
                     end
                 | None => None
                 end) with
      | Some ((m, d), r4) =>
          if (1 <=? m)%Z && (m <=? 12)%Z && (1 <=? d)%Z && (d <=? daysInMonth y m)%Z then
            let day := (daysFromCivil y m d * 86400000)%Z in
            match r4 with
            | [] => Finite (inject_Z day)
            | "T"%char :: r5 =>
                match parseTime r5 with
                | Some ms => Finite (inject_Z (day + ms))
                | None => NaN
                end
            | _ => NaN
            end
          else NaN
      | None => NaN
      end
  | None => NaN
  end.

Definition weekDay (n : Z) : string :=
  nth (Z.to_nat n) ["Sun"; "Mon"; "Tue"; "Wed"; "Thu"; "Fri"; "Sat"] "".

Definition monthName (m : Z) : string :=
  nth (Z.to_nat (m - 1))
    ["Jan"; "Feb"; "Mar"; "Apr"; "May"; "Jun"; "Jul"; "Aug"; "Sep"; "Oct"; "Nov"; "Dec"] "".

(** [Date.prototype.toString] in UTC. *)
Definition dateToString (t : number) : string :=
  match t with
  | Finite q =>
      let ms := Qfloor q in
      let days := (ms / 86400000)%Z in
      let rest := (ms mod 86400000)%Z in
      let '(y, m, d) := civilFromDays days in
      weekDay ((days + 4) mod 7) +:+ " " +:+ monthName m +:+ " " +:+ padded 2 d
      +:+ " " +:+ padded 4 y +:+ " " +:+ padded 2 (rest / 3600000)
      +:+ ":" +:+ padded 2 (rest / 60000 mod 60)
      +:+ ":" +:+ padded 2 (rest / 1000 mod 60)
      +:+ " GMT+0000 (Coordinated Universal Time)"
  | _ => "Invalid Date"
  end.

Fixpoint join (sep : string) (parts : list string) : string :=
  match parts with
  | [] => ""
  | [x] => x
  | x :: rest => x +:+ sep +:+ join sep rest
  end.

(** ToString: [Array.prototype.join] renders undefined and null elements as
    the empty string. *)
Fixpoint refToString (v : Value) : string :=
  match v with
  | VUndefined => "undefined"
  | VNull => "null"
  | VBool b => if b then "true" else "false"
  | VNum n => numberToString n
  | VStr s => s
  | VDate t => dateToString t
  | VArr items =>
      join "," (map (fun item => match item with
                                 | VUndefined | VNull => ""
                                 | _ => refToString item
                                 end) items)
  | VObj _ => "[object Object]"
  end.

Fixpoint isPrefix (p s : list ascii) : bool :=
  match p, s with
  | [], _ => true
  | a :: p', b :: s' => Ascii.eqb a b && isPrefix p' s'
  | _ :: _, [] => false
  end.

Fixpoint contains (needle hay : list ascii) : bool :=
  isPrefix needle hay
  || match hay with
     | [] => false
     | _ :: rest => contains needle rest
     end.

(** A pattern without metacharacters matches the subjects that contain it,
    whatever the case when the options hold [i]. *)
Definition refRegexMatch (pattern options subject : string) : bool :=
  if contains ["i"%char] (list_ascii_of_string options) then
    contains (list_ascii_of_string (toLowerCase pattern))
      (list_ascii_of_string (toLowerCase subject))
  else contains (list_ascii_of_string pattern) (list_ascii_of_string subject).

(** The n-th identifier: sixteen characters of the generator's alphabet. *)
Definition refGenerate (n : nat) : string := padded 16 (Z.of_nat n).

Definition refHost : Host :=
  {| StringToNumber := refStringToNumber;
     ToString := refToString;
     DateParse := refDateParse;
     RegexMatch := refRegexMatch;
     generate := refGenerate |}.

(** ** Concrete requests

    The states below are reached from the empty process by the service
    methods themselves, on the reference host. *)

Definition initial : State :=
  {| schemas := []; groups := []; collections := ∅; models := ∅;
     schemaServiceCache := ∅; masterServiceCache := ∅; generated := 0;
     now := Finite (inject_Z 1767225600000) |}.

Definition plainField (name : string) (type : FieldType) (required : bool)
    : FieldDefinition.t :=
  FieldDefinition.make name type required false VUndefined None None.

Definition masterField (name masterType : string) (relationshipType : RelationshipType)
    (required : bool) : FieldDefinition.t :=
  FieldDefinition.make name MASTER required false VUndefined (Some masterType)
    (Some relationshipType).

(** [city { cityName: string required }]. *)
Definition cityDto : CreateSchemaDto.t :=
  CreateSchemaDto.make "city" "City" [plainField "cityName" STRING true] None.

(** [store { name: string required, cityRef: master -> City, one-to-one }]. *)
Definition storeDto : CreateSchemaDto.t :=
  CreateSchemaDto.make "store" "Store"
    [plainField "name" STRING true; masterField "cityRef" "City" ONE_TO_ONE false] None.

(** [tour { title: string, stops: master -> city, one-to-many }]. *)
Definition tourDto : CreateSchemaDto.t :=
  CreateSchemaDto.make "tour" "Tour"
    [plainField "title" STRING false; masterField "stops" "city" ONE_TO_MANY false] None.

(** [product { price: number required }]. *)
Definition productDto : CreateSchemaDto.t :=
  CreateSchemaDto.make "product" "Product" [plainField "price" NUMBER true] None.

(** The same schema under a capitalised name. *)
Definition capitalCityDto : CreateSchemaDto.t :=
  CreateSchemaDto.make "City" "City" [plainField "cityName" STRING true] None.

(** The state after a list of schemas has been created, in order. *)
Definition withSchemas (dtos : list CreateSchemaDto.t) (st : State) : State :=
  fold_left (fun st dto => snd (SchemaService.createSchema (H := refHost) dto st)) dtos st.

(** The state after a list of records has been created through
    [MasterService.createData], in order. *)
Definition withRecords (schemaName : string) (payloads : list JSObject) (st : State)
    : State :=
  fold_left
    (fun st data => snd (MasterService.createData (H := refHost) schemaName data st))
    payloads st.

(** The four schemas, created in this order. *)
Definition registry : State :=
  withSchemas [cityDto; storeDto; tourDto; productDto] initial.

(** Two cities, and a store in the second one. *)
Definition populated : State :=
  withRecords "store"
    [{[ "name" := VStr "S1"; "cityId" := VStr "0000000000000001" ]}]
    (withRecords "city"
       [{[ "cityName" := VStr "Pune" ]}; {[ "cityName" := VStr "Nashik" ]}] registry).


(** The state after the capitalised schema has been created once. *)
Definition capitalised : State := withSchemas [capitalCityDto] initial.


(** An update of the store that points it at a city nobody created and
    supplies an identifier of its own. *)
Definition hijack : JSObject :=
  {[ "cityId" := VStr "nowhere"; "storeId" := VStr "hijacked" ]}.

(** A tour through the two cities and one that does not exist. *)
Definition tourPayload : JSObject :=
  {[ "title" := VStr "Deccan";
     "cityId" := VArr [VStr "0000000000000000"; VStr "missing";
                       VStr "0000000000000001"] ]}.

Definition priceField : FieldDefinition.t := plainField "price" NUMBER true.

Definition openedField : FieldDefinition.t := plainField "opened" DATE false.

(** [?search=pune]. *)
Definition searchPune : FindAllOptions.t :=
  FindAllOptions.make None None None None (Some "pune") None.


(** * Properties *)

(** ** Conversions *)

Lemma truncate_inject_Z (z : Z) : truncate (inject_Z z) = z.
Proof. unfold truncate. simpl. apply Z.quot_1_r. Qed.

Lemma truncate_bound (q : Q) (b : Z) :
  Qle_bool (Qabs q) (inject_Z b) = true ->
  Qle_bool (Qabs (inject_Z (truncate q))) (inject_Z b) = true.
Proof.
  destruct q as [n d]. unfold Qle_bool, truncate, Qabs, inject_Z. simpl.
  rewrite !Z.mul_1_r. intros Hle. apply Z.leb_le in Hle. apply Z.leb_le.
  rewrite <- Z.quot_abs by lia. simpl (Z.abs (Z.pos d)).
  rewrite Z.quot_div_nonneg by lia.
  apply Z.div_le_upper_bound; lia.
Qed.

(** A clipped time value is a fixed point of [TimeClip]. *)
Lemma TimeClip_idempotent (t : number) : TimeClip (TimeClip t) = TimeClip t.
Proof.
  destruct t as [| s | q]; simpl; try reflexivity.
  destruct (Qle_bool (Qabs q) (inject_Z 8640000000000000)) eqn:Hle; [| reflexivity].
  unfold TimeClip.
  rewrite (truncate_bound _ _ Hle). now rewrite truncate_inject_Z.
Qed.

Lemma toLowerCase_idempotent (s : string) : toLowerCase (toLowerCase s) = toLowerCase s.
Proof.
  induction s as [| c s IH]; [reflexivity |].
  simpl. rewrite IH. f_equal.
  destruct c as [[] [] [] [] [] [] [] []]; reflexivity.
Qed.

Section CoercionFacts.
Context `{Host}.

(** The loop body assigns something only for a value that was supplied. *)
Lemma convertField_defined (field : FieldDefinition.t) (value coerced : Value) :
  convertField field value = Ok (Some coerced) -> isUndefined value = false.
Proof.
  unfold convertField. destruct value; try reflexivity.
  simpl. destruct (FieldDefinition.required field); simpl; discriminate.
Qed.

(** C7 (as amended).  For a field of type number and a supplied raw value,
    the conversion computes [Number(value)]; it throws the
    BadRequestException that names the field exactly when the result is NaN,
    and otherwise assigns the number, Infinity included, to the converted
    data. *)
Theorem number_coercion_rejects_exactly_NaN
    (field : FieldDefinition.t) (value : Value) :
  FieldDefinition.type field = NUMBER ->
  isUndefined value = false ->
  (isNaN (ToNumber value) = true <->
   convertField field value
   = Throw (BadRequestException (MustBeValidNumber (FieldDefinition.name field))))
  /\ (isNaN (ToNumber value) = false <->
      convertField field value = Ok (Some (VNum (ToNumber value)))).
Proof.
  intros Ht Hdef. unfold convertField.
  rewrite Ht, Hdef. cbn [negb andb]. rewrite andb_false_r.
  rewrite bool_decide_eq_false_2 by discriminate.
  destruct (isNaN (ToNumber value)); repeat split; intros; congruence.
Qed.

(** C8.  Coercion is idempotent: when the loop body converts a raw value of
    a field to [coerced], it converts [coerced] to [coerced] again, for every
    field type, and in particular does not throw. *)
Theorem coercion_idempotent (field : FieldDefinition.t) (value coerced : Value) :
  convertField field value = Ok (Some coerced) ->
  convertField field coerced = Ok (Some coerced).
Proof.
  intros Hc. pose proof (convertField_defined _ _ _ Hc) as Hdef.
  unfold convertField in *. rewrite Hdef in Hc. cbn [negb andb] in Hc.
  rewrite andb_false_r in Hc.
  destruct (bool_decide (FieldDefinition.type field = MASTER)) eqn:Hm.
  - injection Hc as <-. rewrite Hdef. simpl. now rewrite andb_false_r.
  - destruct (FieldDefinition.type field) eqn:Ht.
    + (* string *)
      injection Hc as <-. rewrite Hdef. simpl. now rewrite andb_false_r.
    + (* number *)
      destruct (isNaN (ToNumber value)) eqn:Hn; [discriminate |].
      injection Hc as <-. simpl. rewrite andb_false_r. simpl. now rewrite Hn.
    + (* boolean *)
      assert (exists b, coerced = VBool b) as [b ->]
        by (destruct value; injection Hc as <-; eauto).
      simpl. now rewrite andb_false_r.
    + (* date *)
      destruct (isNaN (newDate value)) eqn:Hn; [discriminate |].
      injection Hc as <-. simpl. rewrite andb_false_r.
      assert (newDate (VDate (newDate value)) = newDate value) as ->
        by (unfold newDate; apply TimeClip_idempotent).
      now rewrite Hn.
    + (* object *)
      destruct (typeofObject value) eqn:Ha; simpl in Hc; [| discriminate].
      injection Hc as <-. rewrite Hdef, Ha. simpl. now rewrite andb_false_r.
    + (* array *)
      destruct (isArray value) eqn:Ha; simpl in Hc; [| discriminate].
      injection Hc as <-. rewrite Hdef, Ha. simpl. now rewrite andb_false_r.
    + (* master: excluded by Hm *)
      injection Hc as <-. rewrite Hdef. simpl. now rewrite andb_false_r.
Qed.


(** A name that no field of the list bears keeps its entry. *)
Lemma convertFields_other (fields : list FieldDefinition.t)
    (data acc out : JSObject) (key : string) :
  convertFields fields data acc = Ok out ->
  ~ In key (map FieldDefinition.name fields) ->
  out !! key = acc !! key.
Proof.
  revert acc. induction fields as [| f rest IH]; intros acc Hrun Hnot.
  - simpl in Hrun. now injection Hrun as <-.
  - simpl in Hrun, Hnot.
    destruct (convertField f (prop data (FieldDefinition.name f))) as [[v |] | e];
      simpl in Hrun; try discriminate.
    + rewrite (IH _ Hrun) by tauto. apply lookup_insert_ne. tauto.
    + apply IH; tauto.
Qed.

(** What the loop body assigns for a field is what the converted data hold
    under its name when the loop ends, field names being distinct. *)
Lemma convertFields_lookup (fields : list FieldDefinition.t)
    (data acc out : JSObject) (field : FieldDefinition.t) (v : Value) :
  convertFields fields data acc = Ok out ->
  NoDup (map FieldDefinition.name fields) ->
  In field fields ->
  convertField field (prop data (FieldDefinition.name field)) = Ok (Some v) ->
  out !! FieldDefinition.name field = Some v.
Proof.
  revert acc. induction fields as [| f rest IH]; intros acc Hrun Hnd Hin Hconv.
  - destruct Hin.
  - simpl in Hrun. apply NoDup_cons in Hnd as [Hfresh Hnd].
    destruct Hin as [-> | Hin].
    + rewrite Hconv in Hrun. simpl in Hrun.
      rewrite (convertFields_other _ _ _ _ _ Hrun).
      * apply lookup_insert_eq.
      * now rewrite <- list_elem_of_In.
    + destruct (convertField f (prop data (FieldDefinition.name f))) as [[w |] | e];
        simpl in Hrun; try discriminate; eapply IH; eauto.
Qed.

(** The record [MasterService.createData] returns holds, under the name of
    each field, the value the loop body assigned for it. *)
Lemma createData_stores_converted (st st' : State) (schemaName : string)
    (data saved : JSObject) (cached : CacheEntry) (field : FieldDefinition.t)
    (v : Value) :
  masterServiceCache st !! toLowerCase schemaName = Some cached ->
  NoDup (map FieldDefinition.name (CreateSchemaDto.fields (schema cached))) ->
  In field (CreateSchemaDto.fields (schema cached)) ->
  FieldDefinition.name field <> idFieldNameOf schemaName ->
  convertField field (prop data (FieldDefinition.name field)) = Ok (Some v) ->
  MasterService.createData schemaName data st = (Ok saved, st') ->
  saved !! FieldDefinition.name field = Some v
  /\ collections st' !! collectionName (model cached)
     = Some (documents st (model cached) ++ [saved]).
Proof.
  intros Hcache Hnd Hin Hid Hconv Hrun.
  unfold MasterService.createData, MasterService.getModel in Hrun.
  rewrite Hcache in Hrun. simpl in Hrun.
  destruct (convertFields _ _ _) as [converted | e] eqn:Hfields; [| discriminate].
  simpl in Hrun.
  destruct (MasterService.validateMasterReferences _ _ _) as [[] | e]; [| discriminate].
  simpl in Hrun. injection Hrun as <- <-.
  assert (converted !! FieldDefinition.name field = Some v) as Hv.
  { eapply convertFields_lookup; eauto.
    unfold prop. rewrite lookup_delete_ne by congruence. exact Hconv. }
  split.
  - apply lookup_union_Some_l. exact Hv.
  - simpl. apply lookup_insert_eq.
Qed.
End CoercionFacts.

(** ** Sorting and pagination *)




Section InsertionSort.
Context {A : Type} (le : A -> A -> bool).
Hypothesis le_total : forall a b, le a b = false -> le b a = true.



End InsertionSort.






Section Listing.
Context `{Host}.

End Listing.

(** ** The schema registry *)


Lemma find_app_fresh {A : Type} (p : A -> bool) (l : list A) (x : A) :
  List.find p l = None -> p x = true -> List.find p (l ++ [x]) = Some x.
Proof.
  induction l as [| y rest IH]; simpl; intros Hnone Hp.
  - now rewrite Hp.
  - destruct (p y); [discriminate | now apply IH].
Qed.

Lemma find_app_none {A : Type} (p : A -> bool) (l : list A) (x : A) :
  List.find p l = None -> p x = false -> List.find p (l ++ [x]) = None.
Proof.
  induction l as [| y rest IH]; simpl; intros Hnone Hp.
  - now rewrite Hp.
  - destruct (p y); [discriminate | now apply IH].
Qed.

Section Registry.
Context `{Host}.


Lemma updateSchemaCache_schemas (schemaName : string) (schema : CreateSchemaDto.t)
    (st : State) :
  schemas (snd (MasterService.updateSchemaCache schemaName schema st)) = schemas st.
Proof.
  unfold MasterService.updateSchemaCache, andThen.
  destruct (MasterService.buildSchemaDefinition schema); [| reflexivity].
  simpl. now case_bool_decide.
Qed.

Lemma emit_schemas (event : SchemaEvent) (st : State) :
  schemas (emit event st) = schemas st.
Proof. destruct event; simpl; try reflexivity; apply updateSchemaCache_schemas. Qed.


(** What a successful [createSchema] leaves in the [schemas] collection:
    the definition with its fields transformed, appended, under a name that
    was not found before. *)
Lemma createSchema_stored (createSchemaDto : CreateSchemaDto.t)
    (st st' : State) (reply : Reply) :
  SchemaService.createSchema createSchemaDto st = (Ok reply, st') ->
  exists fields : list FieldDefinition.t,
    mapResult SchemaService.transformField (CreateSchemaDto.fields createSchemaDto)
    = Ok fields
    /\ SchemaService.findSchema st (toLowerCase (CreateSchemaDto.name createSchemaDto))
       = None
    /\ schemas st'
       = schemas st
         ++ [CreateSchemaDto.make (CreateSchemaDto.name createSchemaDto)
               (CreateSchemaDto.displayName createSchemaDto) fields
               (CreateSchemaDto.groupId createSchemaDto)].
Proof.
  intros Hrun. unfold SchemaService.createSchema in Hrun.
  destruct (SchemaService.findSchema st _) eqn:Hfresh; [discriminate |].
  destruct (mapResult SchemaService.transformField _) as [fields | e] eqn:Hmap;
    [| discriminate].
  cbn [andThen] in Hrun.
  destruct (SchemaService.validateSchema st _) as [[] | e]; [| discriminate].
  cbn [andThen] in Hrun.
  match type of Hrun with
  | context [andThen ?g _ _] => destruct g as [[] | e]; [| discriminate]
  end.
  cbn [andThen] in Hrun.
  destruct (SchemaService.buildSchemaDefinition _) as [definition | e]; [| discriminate].
  cbn [andThen compileModel] in Hrun. injection Hrun as _ <-.
  exists fields. repeat split.
  unfold MasterService.handleSchemaCreated. now rewrite updateSchemaCache_schemas.
Qed.



(** The part of the uniqueness of names that holds: a name that is found in
    the collection is refused, so once a definition has been created under
    a lower-case name every spelling of that name is refused. *)
Lemma createSchema_rejects_registered_name (createSchemaDto stored : CreateSchemaDto.t)
    (st : State) :
  SchemaService.findSchema st (toLowerCase (CreateSchemaDto.name createSchemaDto))
  = Some stored ->
  SchemaService.createSchema createSchemaDto st
  = (Throw (BadRequestException
              (SchemaAlreadyExists (toLowerCase (CreateSchemaDto.name createSchemaDto)))),
     st).
Proof. intros Hfound. unfold SchemaService.createSchema. now rewrite Hfound. Qed.

Lemma createSchema_twice_lower_case (first second : CreateSchemaDto.t)
    (st st' : State) (reply : Reply) :
  SchemaService.createSchema first st = (Ok reply, st') ->
  toLowerCase (CreateSchemaDto.name first) = CreateSchemaDto.name first ->
  toLowerCase (CreateSchemaDto.name second) = CreateSchemaDto.name first ->
  SchemaService.createSchema second st'
  = (Throw (BadRequestException (SchemaAlreadyExists (CreateSchemaDto.name first))), st').
Proof.
  intros Hrun Hlower Hsame.
  destruct (createSchema_stored _ _ _ _ Hrun) as (fields & _ & Hfresh & Hschemas).
  rewrite <- Hsame at 1.
  eapply createSchema_rejects_registered_name.
  unfold SchemaService.findSchema in *. rewrite Hschemas, Hsame.
  rewrite Hlower in Hfresh. apply (find_app_fresh _ _ _ Hfresh). apply String.eqb_refl.
Qed.

(** [deleteSchema] never touches the cache of [MasterService]: nothing
    listens to 'schema.deleted'. *)
Lemma deleteSchema_keeps_master_cache (schemaName : string) (force : bool) (st : State) :
  masterServiceCache (snd (SchemaService.deleteSchema schemaName force st))
  = masterServiceCache st.
Proof.
  unfold SchemaService.deleteSchema.
  destruct (SchemaService.findSchema st _); [| reflexivity].
  destruct (_ && negb force); [reflexivity |].
  simpl. now destruct force; case_bool_decide.
Qed.

(** In partial mode the fields the payload does not carry take no part in
    the validation. *)
Lemma partial_mode_skips_absent_fields (data : JSObject)
    (fields : list FieldDefinition.t) :
  SchemaService.collectChecks data true fields
  = SchemaService.collectChecks data true
      (List.filter (fun field => hasProp (FieldDefinition.name field) data) fields).
Proof.
  induction fields as [| field rest IH]; [reflexivity |].
  simpl. destruct (hasProp (FieldDefinition.name field) data) eqn:Hin; simpl.
  - rewrite Hin. simpl. rewrite IH.
    case_bool_decide; [| reflexivity].
    destruct (toLowerCaseOf _); [| reflexivity]. simpl.
    destruct (_ && negb _); [reflexivity |]. reflexivity.
  - exact IH.
Qed.

(** The references of a collection are checked in order, and the first one
    that does not exist is the one the exception names. *)
Lemma checkReference_first_missing (st : State) (masterModel : Model)
    (masterType : string) (valid rest : list Value) (id : Value) :
  Forall (fun v => exists_ st masterModel {[ masterType +:+ "Id" := v ]} = true) valid ->
  exists_ st masterModel {[ masterType +:+ "Id" := id ]} = false ->
  forEach (MasterService.checkReference st masterModel masterType) (valid ++ id :: rest)
  = Throw (BadRequestException (InvalidReference id masterType)).
Proof.
  intros Hvalid Hmissing.
  induction Hvalid as [| v valid Hv _ IH]; simpl.
  - unfold MasterService.checkReference. now rewrite Hmissing.
  - unfold MasterService.checkReference at 1. rewrite Hv. simpl. exact IH.
Qed.
(** The slip behind C2, in general: a definition whose name is not in lower
    case is stored under the name as written, so the lookup of its
    lower-cased name still finds nothing after it has been created: the
    duplicate check cannot see it, and neither can [getSchema]. *)
Lemma createSchema_upper_case_not_registered (createSchemaDto : CreateSchemaDto.t)
    (st st' : State) (reply : Reply) :
  SchemaService.createSchema createSchemaDto st = (Ok reply, st') ->
  toLowerCase (CreateSchemaDto.name createSchemaDto) <> CreateSchemaDto.name createSchemaDto ->
  SchemaService.findSchema st' (toLowerCase (CreateSchemaDto.name createSchemaDto)) = None
  /\ SchemaService.getSchema st' (CreateSchemaDto.name createSchemaDto)
     = Throw (NotFoundException (SchemaDoesNotExist (CreateSchemaDto.name createSchemaDto))).
Proof.
  intros Hrun Hupper.
  destruct (createSchema_stored _ _ _ _ Hrun) as (fields & _ & Hfresh & Hschemas).
  assert (SchemaService.findSchema st' (toLowerCase (CreateSchemaDto.name createSchemaDto))
          = None) as Hnone.
  { unfold SchemaService.findSchema in *. rewrite Hschemas.
    apply find_app_none; [exact Hfresh |].
    simpl. apply String.eqb_neq. congruence. }
  split; [exact Hnone |].
  unfold SchemaService.getSchema. now rewrite Hnone.
Qed.

(** The slip behind C1, in general: [MasterService.update] accepts every
    payload for a record that exists, and writes it as it is. *)
Lemma MasterService_update_accepts_every_payload (st : State) (schemaName id : string)
    (data existing : JSObject) (Model : Model) :
  MasterService.getModel st schemaName = Ok Model ->
  findOne st Model {[ idFieldNameOf schemaName := VStr id ]} = Some existing ->
  exists st' : State,
    MasterService.update schemaName id data st = (Ok (data ∪ existing), st').
Proof.
  intros Hmodel Hfound. unfold MasterService.update. rewrite Hmodel. simpl.
  unfold findOneAndUpdate. rewrite Hfound. eexists. reflexivity.
Qed.

(** The slip behind C3, in general: [MasterService] gives a master field a
    single slot whatever its relationship type, where [SchemaService] gives
    a one-to-many or many-to-many field a collection. *)
Lemma MasterService_addField_ignores_relationshipType
    (definition : gmap string PathDefinition) (field : FieldDefinition.t)
    (masterType : string) :
  FieldDefinition.type field = MASTER ->
  FieldDefinition.masterType field = Some masterType ->
  MasterService.addField definition field
  = Ok (<[toLowerCase masterType +:+ "Id" :=
            Path (SchemaTypeOptions.make SString (FieldDefinition.required field)
                    false NoDefault (Some (toLowerCase masterType)))]> definition).
Proof.
  intros Hty Hmaster. unfold MasterService.addField.
  rewrite Hty, Hmaster. simpl. now rewrite orb_false_r.
Qed.

Lemma SchemaService_addField_collection
    (definition : gmap string PathDefinition) (field : FieldDefinition.t)
    (masterType : string) :
  FieldDefinition.type field = MASTER ->
  FieldDefinition.masterType field = Some masterType ->
  FieldDefinition.relationshipType field = Some ONE_TO_MANY
  \/ FieldDefinition.relationshipType field = Some MANY_TO_MANY ->
  SchemaService.addField definition field
  = Ok (<[toLowerCase masterType +:+ "Id" :=
            ArrayOf (SchemaTypeOptions.make SString false false NoDefault
                       (Some (toLowerCase masterType)))]> definition).
Proof.
  intros Hty Hmaster Hrel. unfold SchemaService.addField.
  rewrite Hty, Hmaster. simpl. now destruct Hrel as [-> | ->].
Qed.
End Registry.

(** ** The services on concrete requests (reference host) *)

(** Both sides are closed: run the model. *)
Ltac evaluate := vm_compute; reflexivity.

(** C1, at the failing input.  [MasterService.update], the method behind
    [PUT master/:masterName/data/:id], neither strips the identifier field
    from the payload nor runs the reference validator: the store is
    rewritten with a city that does not exist and with the caller's
    identifier.  [SchemaService.update] on the same request throws the
    BadRequestException for the missing reference. *)
Theorem MasterService_update_skips_the_checks :
  (exists city : Model,
     MasterService.getModel populated "city" = Ok city
     /\ exists_ (H := refHost) populated city {[ "cityId" := VStr "nowhere" ]} = false)
  /\ (exists (updated : JSObject) (st' : State),
        MasterService.update (H := refHost) "store" "0000000000000002" hijack populated
        = (Ok updated, st')
        /\ updated !! "cityId" = Some (VStr "nowhere")
        /\ updated !! "storeId" = Some (VStr "hijacked")
        /\ collections st' !! "store" = Some [updated])
  /\ SchemaService.update (H := refHost) "store" "0000000000000002" hijack populated
     = (Throw (BadRequestException (InvalidReference (VStr "nowhere") "city")), populated).
Proof.
  split; [| split].
  - eexists. split; evaluate.
  - do 2 eexists. split; [evaluate |].
    repeat split; evaluate.
  - evaluate.
Qed.

(** C2, at the failing input.  [createSchema] looks the lower-cased name up
    but stores the name as it was written: after "City" has been created,
    "City" and "city" are both created again, and [getSchema] does not find
    "City". *)
Theorem createSchema_accepts_a_second_City :
  fst (SchemaService.createSchema (H := refHost) capitalCityDto initial)
  = Ok (CreatedSuccessfully "city")
  /\ fst (SchemaService.createSchema (H := refHost) capitalCityDto capitalised)
     = Ok (CreatedSuccessfully "city")
  /\ fst (SchemaService.createSchema (H := refHost) cityDto capitalised)
     = Ok (CreatedSuccessfully "city")
  /\ map CreateSchemaDto.name
       (schemas (snd (SchemaService.createSchema (H := refHost) cityDto capitalised)))
     = ["City"; "city"]
  /\ SchemaService.getSchema capitalised "City"
     = Throw (NotFoundException (SchemaDoesNotExist "City")).
Proof. repeat split; evaluate. Qed.

(** C3, at the failing input.  For the one-to-many field of [tour] the
    accessor [MasterService] builds, which is also the model left
    registered on the connection, has a single String slot;
    [SchemaService] builds a collection of String slots.  The validation of
    the references does name the missing id. *)
Theorem MasterService_builds_a_single_slot :
  (schemaDefinition <$> (model <$> masterServiceCache registry !! "tour"))
    ≫= (fun definition => definition !! "cityId")
  = Some (Path (SchemaTypeOptions.make SString false false NoDefault (Some "city")))
  /\ (schemaDefinition <$> models registry !! "tour")
       ≫= (fun definition => definition !! "cityId")
     = Some (Path (SchemaTypeOptions.make SString false false NoDefault (Some "city")))
  /\ (schemaDefinition <$> (model <$> schemaServiceCache registry !! "tour"))
       ≫= (fun definition => definition !! "cityId")
     = Some (ArrayOf (SchemaTypeOptions.make SString false false NoDefault (Some "city")))
  /\ MasterService.createData (H := refHost) "tour" tourPayload populated
     = (Throw (BadRequestException (InvalidReference (VStr "missing") "city")), populated).
Proof. repeat split; evaluate. Qed.

(** The reference guard of [deleteSchema] compares the stored [masterType]
    with the lower-cased name: [store], which declares its master as
    "City", is not among the schemas that block the deletion of [city]. *)
Example deleteSchema_lists_exact_spellings :
  fst (SchemaService.deleteSchema (H := refHost) "city" false registry)
  = Throw (BadRequestException (ReferencedByOtherSchemas "city" ["tour"])).
Proof. evaluate. Qed.




(** C6, at the failing input.  [MasterService.findAll] searches the two
    properties [name] and [description] whatever the schema: the search for
    "pune" finds no city, although the string field [cityName] of a stored
    city contains it.  [SchemaService.findAll] searches the String paths of
    the model and finds that city. *)
Theorem MasterService_findAll_searches_name_and_description :
  map_to_list (MasterService.buildQuery searchPune)
  = [("$or", VArr [VObj [("name", regexCondition "pune")];
                   VObj [("description", regexCondition "pune")]])]
  /\ (exists found : Paginated.t,
        MasterService.findAll (H := refHost) populated "city" searchPune = Ok found
        /\ Paginated.data found = []
        /\ Paginated.total found = 0)
  /\ (exists (found : list JSObject) (meta : Meta.t),
        SchemaService.findAll (H := refHost) populated "city" searchPune
        = Ok (found, meta)
        /\ map (fun doc => doc !! "cityName") found = [Some (VStr "Pune")]
        /\ Meta.total meta = 1).
Proof.
  split; [evaluate |]. split.
  - eexists. split; [evaluate |]. split; reflexivity.
  - do 2 eexists. split; [evaluate |]. split; evaluate.
Qed.

(** C7, the counterexample.  "Infinity" parses to a number that is not
    finite, and the conversion does not throw: the record is stored with
    the price Infinity. *)
Lemma number_coercion_accepts_Infinity :
  isFinite (ToNumber (H := refHost) (VStr "Infinity")) = false
  /\ convertField (H := refHost) priceField (VStr "Infinity")
     = Ok (Some (VNum (Infinity false)))
  /\ exists (saved : JSObject) (st' : State),
       MasterService.createData (H := refHost) "product"
         {[ "price" := VStr "Infinity" ]} registry
       = (Ok saved, st')
       /\ saved !! "price" = Some (VNum (Infinity false))
       /\ collections st' !! "product" = Some [saved].
Proof.
  split; [reflexivity |]. split; [reflexivity |].
  do 2 eexists. split; [evaluate |]. split; evaluate.
Qed.

(** C7 as amended, on the price "12.5" and on the price "abc". *)
Lemma number_coercion_witness :
  convertField (H := refHost) priceField (VStr "12.5") = Ok (Some (VNum (Finite (25 # 2))))
  /\ convertField (H := refHost) priceField (VStr "abc")
     = Throw (BadRequestException (MustBeValidNumber "price")).
Proof.
  split.
  - apply (number_coercion_rejects_exactly_NaN (H := refHost) priceField (VStr "12.5")
             eq_refl eq_refl).
    reflexivity.
  - apply (number_coercion_rejects_exactly_NaN (H := refHost) priceField (VStr "abc")
             eq_refl eq_refl).
    reflexivity.
Defined.

(** C8, on a date: the text "2024-02-29" becomes a Date, and that Date is
    converted to itself. *)
Lemma coercion_idempotent_witness :
  convertField (H := refHost) openedField (VStr "2024-02-29")
  = Ok (Some (VDate (Finite (inject_Z 1709164800000))))
  /\ convertField (H := refHost) openedField (VDate (Finite (inject_Z 1709164800000)))
     = Ok (Some (VDate (Finite (inject_Z 1709164800000)))).
Proof.
  split; [reflexivity |].
  apply (coercion_idempotent (H := refHost) openedField (VStr "2024-02-29")).
  reflexivity.
Defined.


